(** * TradingLab: market economics, training validation and live entry handling

    A shallow embedding of
      - [engine/market_spec.py]            ([MarketSpec], [Broker]),
      - [validation/training_validator.py] ([TrainingValidator]),
      - [engine/live_trading_engine.py]    ([LiveTradingEngine]),
    together with the properties the specification states about them.

    Numbers.  Python [float]s are modelled as exact rationals [Q]; NaN and
    the infinities have no counterpart, except where the source writes
    [float('inf')] itself, which is then modelled by [None] of an option.
    Numeric equality of two results is [Qeq] ([==]); where the source
    computes the very same expression the results are equal on the nose.

    Exceptions.  A Python expression that can raise is a computation in
    [result]; [ZeroDivisionError] is raised by [/] on a zero divisor.

    Dictionaries are [gmap string _]; a missing key is a missing binding, and
    [d.get(k, default)] is [default (d !! k)]. *)

From Stdlib Require Import QArith Qabs ZArith String Lia Lqa.
From stdpp Require Import gmap strings list fin_maps.

(** ** Python values and exceptions *)

(** The exceptions of the modelled code and of its collaborators; all of
    them are instances of Python's [Exception]. *)
Inductive exn : Type :=
  | ZeroDivisionError
  | Exception (msg : string).

Inductive result (A : Type) : Type :=
  | Ok (a : A)
  | Raise (e : exn).
Arguments Ok {A} a.
Arguments Raise {A} e.

(** [result] is a monad; [x ← r; k] stops at the first [Raise]. *)
#[global] Instance result_ret : MRet result := λ A a, Ok a.
#[global] Instance result_bind : MBind result := λ A B k r,
  match r with
  | Ok a => k a
  | Raise e => Raise e
  end.
#[global] Instance result_fmap : FMap result := λ A B f r,
  match r with
  | Ok a => Ok (f a)
  | Raise e => Raise e
  end.

(** [bool(x)] of a float: every zero is falsy. *)
Definition truthy (x : Q) : bool := negb (Qeq_bool x 0).

(** [x or d] where [x : Optional[float]]: [None] and [0.0] both yield [d]. *)
Definition py_or (x : option Q) (d : Q) : Q :=
  match x with
  | Some v => if truthy v then v else d
  | None => d
  end.

(** [a / b] on floats. *)
Definition py_div (a b : Q) : result Q :=
  if Qeq_bool b 0 then Raise ZeroDivisionError else Ok (a / b)%Q.

Definition Qlt_bool (x y : Q) : bool := negb (Qle_bool y x).

(** [min(a, b)]: the first argument unless the second is strictly smaller. *)
Definition py_min (a b : Q) : Q := if Qlt_bool b a then b else a.

(** ** engine/market_spec.py *)

Module MarketEconomics.

Record MarketSpec : Type := {
  symbol : string;
  exchange : string;
  asset_class : string;
  market_type : string;
  leverage : Q;
  contract_size : option Q;
  pip_value : option Q;
  min_trade_size : Q;
  price_precision : Z;
  quantity_precision : Z;
  commission_rate : Q;
  commission_per_contract : option Q;
  slippage_ticks : Q;
  initial_margin_per_contract : option Q;
  intraday_margin_per_contract : option Q;
  maintenance_margin_rate : option Q;
  margin_mode : string
}.

(** The same market with another leverage: every other field is kept. *)
Definition with_leverage (self : MarketSpec) (l : Q) : MarketSpec :=
  {| symbol := symbol self;
     exchange := exchange self;
     asset_class := asset_class self;
     market_type := market_type self;
     leverage := l;
     contract_size := contract_size self;
     pip_value := pip_value self;
     min_trade_size := min_trade_size self;
     price_precision := price_precision self;
     quantity_precision := quantity_precision self;
     commission_rate := commission_rate self;
     commission_per_contract := commission_per_contract self;
     slippage_ticks := slippage_ticks self;
     initial_margin_per_contract := initial_margin_per_contract self;
     intraday_margin_per_contract := intraday_margin_per_contract self;
     maintenance_margin_rate := maintenance_margin_rate self;
     margin_mode := margin_mode self |}.

Definition is_futures (self : MarketSpec) : bool :=
  String.eqb (asset_class self) "futures".

(** [MarketSpec.calculate_margin]; [is_intraday] defaults to [True] at the
    call sites that omit it. *)
Definition calculate_margin (self : MarketSpec)
    (entry_price quantity : Q) (is_intraday : bool) : result Q :=
  if is_futures self then
    match initial_margin_per_contract self with
    | Some initial =>
        match is_intraday, intraday_margin_per_contract self with
        | true, Some intraday => Ok (Qabs quantity * intraday)%Q
        | _, _ => Ok (Qabs quantity * initial)%Q
        end
    | None =>
        let notional_value := (entry_price * Qabs quantity)%Q in
        py_div notional_value (leverage self)
    end
  else
    let notional_value := (entry_price * Qabs quantity)%Q in
    py_div notional_value (leverage self).

(** [MarketSpec.calculate_maintenance_margin]. *)
Definition calculate_maintenance_margin (self : MarketSpec)
    (entry_price quantity : Q) (current_price : option Q) : result Q :=
  let price := py_or current_price entry_price in
  let notional_value := (price * Qabs quantity)%Q in
  if is_futures self then
    match maintenance_margin_rate self with
    | Some rate => Ok (notional_value * rate)%Q
    | None =>
        match initial_margin_per_contract self with
        | Some initial => Ok (Qabs quantity * initial)%Q
        | None => calculate_margin self entry_price quantity true
        end
    end
  else calculate_margin self entry_price quantity true.

(** [MarketSpec.calculate_unrealized_pnl]. *)
Definition calculate_unrealized_pnl (self : MarketSpec)
    (entry_price current_price quantity : Q) (direction : string) : Q :=
  if String.eqb direction "long"
  then ((current_price - entry_price) * quantity)%Q
  else ((entry_price - current_price) * quantity)%Q.

(** [MarketSpec.calculate_realized_pnl]. *)
Definition calculate_realized_pnl (self : MarketSpec)
    (entry_price exit_price quantity : Q) (direction : string) : Q :=
  calculate_unrealized_pnl self entry_price exit_price quantity direction.

Record Broker : Type := {
  market_spec : MarketSpec;
  margin_call_level : Q
}.

(** [Broker.calculate_margin_required]. *)
Definition calculate_margin_required (self : Broker)
    (entry_price quantity : Q) : result Q :=
  calculate_margin (market_spec self) entry_price quantity true.

(** [Broker.can_afford_position]: the pair [(can_afford, required_cash)]. *)
Definition can_afford_position (self : Broker)
    (entry_price quantity available_cash : Q)
    (commission_rate_arg : option Q) : result (bool * Q) :=
  margin ← calculate_margin_required self entry_price quantity ;
  let commission_rate :=
    py_or commission_rate_arg (commission_rate (market_spec self)) in
  let commission := (entry_price * quantity * commission_rate)%Q in
  let required_cash := (margin + commission)%Q in
  let can_afford := Qle_bool required_cash available_cash in
  Ok (can_afford, required_cash).

(** [Broker.check_margin_call].  [margin_level] is [None] where the source
    takes [float('inf')], which is below no finite level. *)
Definition check_margin_call (self : Broker)
    (equity margin_used : Q) : result bool :=
  if Qle_bool margin_used 0 then Ok false
  else if Qle_bool equity 0 then Ok true
  else
    margin_level ←
      (if Qlt_bool 0 margin_used
       then q ← py_div equity margin_used ; Ok (Some q)
       else Ok None) ;
    Ok (match margin_level with
        | Some lvl => Qlt_bool lvl (margin_call_level self)
        | None => false
        end).

(** The local [max_affordable_qty] of [Broker.adjust_quantity_for_cash]. *)
Definition max_affordable_qty (self : Broker)
    (entry_price available_cash : Q)
    (commission_rate_arg : option Q) : result Q :=
  let commission_rate :=
    py_or commission_rate_arg (commission_rate (market_spec self)) in
  inv_leverage ← py_div 1 (leverage (market_spec self)) ;
  py_div available_cash (entry_price * (inv_leverage + commission_rate))%Q.

(** [Broker.adjust_quantity_for_cash]. *)
Definition adjust_quantity_for_cash (self : Broker)
    (entry_price desired_quantity available_cash : Q)
    (commission_rate_arg : option Q) : result Q :=
  max_qty ← max_affordable_qty self entry_price available_cash
              commission_rate_arg ;
  Ok (py_min desired_quantity max_qty).

End MarketEconomics.

(** ** validation/training_validator.py *)

Module Validation.

(** [d.values()], [bool(d)] and [len(d)] of a dictionary. *)
Definition values {A} (d : gmap string A) : list A := (map_to_list d).*2.
Definition dict_truthy {A} (d : gmap string A) : bool :=
  negb (Nat.eqb (size d) 0).

(** [sum(bs)] over a list of booleans. *)
Definition py_sum (bs : list bool) : nat :=
  foldr (λ b n, Nat.b2n b + n) 0 bs.

(** [all(bs)]. *)
Definition py_all (bs : list bool) : bool := forallb id bs.

(** [config.schema.TrainingValidationCriteria]: the thresholds the validator
    reads (the class itself is declared outside the files at hand). *)
Record TrainingValidationCriteria : Type := {
  training_min_profit_factor : Q;
  training_min_sharpe : Q;
  training_min_trades : Z;
  min_mc_score : Q;
  min_mc_percentile : Q;
  monte_carlo_p_value_max : Q;
  sensitivity_max_cv : Q
}.

(** What the validator reads of a [BacktestResult]. *)
Record BacktestResult : Type := {
  total_trades : Z
}.

(** One Monte Carlo test's result dictionary: the keys ['skipped'] and
    ['p_values'], each possibly absent. *)
Record TestResult : Type := {
  skipped : option bool;
  p_values : option (gmap string Q)
}.

(** The [combined] dictionary: keys ['score'] and ['percentile']. *)
Record Combined : Type := {
  score : option Q;
  percentile : option Q
}.

Record MonteCarloSuiteResult : Type := {
  permutation : TestResult;
  bootstrap : TestResult;
  randomized_entry : TestResult;
  combined : Combined
}.

Record TestSuitability : Type := {
  suitable : bool;
  reason : string;
  alternatives : list string;
  priority : Q
}.

(** [[name for name, suit in test_suitability.items() if suit.suitable]]. *)
Definition suitable_tests (test_suitability : gmap string TestSuitability)
    : list string :=
  (List.filter (λ item, suitable item.2) (map_to_list test_suitability)).*1.

(** [name in suitable_tests]. *)
Definition is_in (name : string) (names : list string) : bool :=
  bool_decide (name ∈ names).

(** [sum(1 for p in p_values.values() if p <= max_p)]. *)
Definition passing_metrics (max_p : Q) (pv : gmap string Q) : nat :=
  length (List.filter (λ p, Qle_bool p max_p) (values pv)).

(** The block the source repeats for each test:
    [[
      if p_values:
          passing_metrics = sum(1 for p in p_values.values() if p <= max_p)
          test_pass = passing_metrics >= (len(p_values) / 2)
    ]]
    with [test_pass] initially [False].  [len / 2] is Python's true
    division. *)
Definition majority_rule (max_p : Q) (pv : gmap string Q) : bool :=
  if dict_truthy pv then
    Qle_bool (inject_Z (Z.of_nat (size pv)) / 2)
             (inject_Z (Z.of_nat (passing_metrics max_p pv)))
  else false.

Section Validator.
Variable criteria : TrainingValidationCriteria.

(** [TrainingValidator._check_backtest_quality]. *)
Definition _check_backtest_quality (result : BacktestResult)
    (enhanced_metrics : gmap string Q) : gmap string bool :=
  let profit_factor := default 0%Q (enhanced_metrics !! "profit_factor") in
  let sharpe_ratio := default 0%Q (enhanced_metrics !! "sharpe_ratio") in
  <["min_trades" :=
      Z.leb (training_min_trades criteria) (total_trades result)]>
  (<["min_sharpe" :=
      Qle_bool (training_min_sharpe criteria) sharpe_ratio]>
  (<["min_profit_factor" :=
      Qle_bool (training_min_profit_factor criteria) profit_factor]> ∅)).

(** The three per-test flags of
    [TrainingValidator._check_monte_carlo_suite_conditional]. *)
Definition perm_pass (mc_results : MonteCarloSuiteResult)
    (names : list string) : bool :=
  if is_in "permutation" names
     && negb (default false (skipped (permutation mc_results)))
  then majority_rule (monte_carlo_p_value_max criteria)
         (default ∅ (p_values (permutation mc_results)))
  else false.

Definition bootstrap_pass (mc_results : MonteCarloSuiteResult)
    (names : list string) : bool :=
  if is_in "bootstrap" names
     && negb (default false (skipped (bootstrap mc_results)))
  then majority_rule (monte_carlo_p_value_max criteria)
         (default ∅ (p_values (bootstrap mc_results)))
  else false.

Definition randomized_pass (mc_results : MonteCarloSuiteResult) : bool :=
  majority_rule (monte_carlo_p_value_max criteria)
    (default ∅ (p_values (randomized_entry mc_results))).

(** The value stored under ['mc_individual_tests']. *)
Definition mc_individual_tests (mc_results : MonteCarloSuiteResult)
    (test_suitability : gmap string TestSuitability) : bool :=
  let names := suitable_tests test_suitability in
  let perm := perm_pass mc_results names in
  let boot := bootstrap_pass mc_results names in
  let rand := randomized_pass mc_results in
  let n_suitable := length names in
  if Nat.eqb n_suitable 3 then
    let individual_passes := py_sum [perm; boot; rand] in
    Nat.leb 2 individual_passes
  else if Nat.eqb n_suitable 2 then
    let suitable_passes :=
      ((if is_in "permutation" names then [perm] else [])
       ++ (if is_in "bootstrap" names then [boot] else [])
       ++ (if is_in "randomized_entry" names then [rand] else []))%list in
    Nat.leb 1 (py_sum suitable_passes)
  else if Nat.eqb n_suitable 1 then
    if is_in "permutation" names then perm
    else if is_in "bootstrap" names then boot
    else rand
  else false.

(** [TrainingValidator._check_monte_carlo_suite_conditional]. *)
Definition _check_monte_carlo_suite_conditional
    (mc_results : MonteCarloSuiteResult)
    (test_suitability : gmap string TestSuitability) : gmap string bool :=
  let comb := combined mc_results in
  <["mc_individual_tests" := mc_individual_tests mc_results test_suitability]>
  (<["mc_percentile" :=
      Qle_bool (min_mc_percentile criteria) (default 0%Q (percentile comb))]>
  (<["mc_score" :=
      Qle_bool (min_mc_score criteria) (default 0%Q (score comb))]> ∅)).

(** What [_run_sensitivity] returns: the per-parameter analyses, each a
    dictionary of statistics (the data frame of raw results plays no part
    in the checks). *)
Record SensitivityResults : Type := {
  sensitivity_analysis : gmap string (gmap string Q)
}.

(** [analysis.get('coefficient_of_variation', float('inf')) <= max_cv];
    the infinite default exceeds every threshold. *)
Definition cv_within (analysis : gmap string Q) : bool :=
  match analysis !! "coefficient_of_variation" with
  | Some cv => Qle_bool cv (sensitivity_max_cv criteria)
  | None => false
  end.

Definition sensitivity_key (param_name : string) : string :=
  ("sensitivity_" ++ param_name ++ "_cv")%string.

(** [TrainingValidator._check_sensitivity]; [None] stands for a falsy
    argument. *)
Definition _check_sensitivity (sensitivity_results : option SensitivityResults)
    : gmap string bool :=
  match sensitivity_results with
  | None => ∅
  | Some res =>
      let analyses := sensitivity_analysis res in
      let checks :=
        foldl (λ (checks : gmap string bool) item,
                 <[sensitivity_key item.1 := cv_within item.2]> checks)
              ∅ (map_to_list analyses) in
      <["sensitivity_cv" := py_all (cv_within <$> values analyses)]> checks
  end.

(** [TrainingValidationResult], without its [failure_reasons] (formatted
    messages, one for each failed check). *)
Record TrainingValidationResult : Type := {
  passed : bool;
  backtest_result : BacktestResult;
  monte_carlo_results : MonteCarloSuiteResult;
  sensitivity_results : option SensitivityResults;
  criteria_checks : gmap string bool
}.

(** [{**a, **b}]: the bindings of [b] win. *)
Definition dict_merge (a b : gmap string bool) : gmap string bool := b ∪ a.

(** The decision part of [TrainingValidator.validate], from the outputs of
    its collaborators: the backtest result and its enhanced metrics, the
    suitability table, the Monte Carlo suite result and, for the
    sensitivity step, the value [_run_sensitivity] returns when it is run.
    [sensitivity_params] is [None] or a parameter grid. *)
Definition validate
    (backtest : BacktestResult)
    (enhanced_metrics : gmap string Q)
    (test_suitability : gmap string TestSuitability)
    (mc_results : MonteCarloSuiteResult)
    (run_sensitivity : bool)
    (sensitivity_params : option (gmap string (list Q)))
    (sensitivity_run : SensitivityResults) : TrainingValidationResult :=
  let quality_checks :=
    _check_backtest_quality backtest enhanced_metrics in
  let mc_checks :=
    _check_monte_carlo_suite_conditional mc_results test_suitability in
  let requested :=
    run_sensitivity
    && match sensitivity_params with
       | Some grid => dict_truthy grid
       | None => false
       end in
  let sensitivity_results :=
    if requested then Some sensitivity_run else None in
  let sensitivity_checks :=
    if requested then _check_sensitivity sensitivity_results else ∅ in
  let all_checks :=
    dict_merge (dict_merge quality_checks mc_checks) sensitivity_checks in
  let mc_individual_tests_pass :=
    default false (all_checks !! "mc_individual_tests") in
  let mc_score_pass := default false (all_checks !! "mc_score") in
  let mc_percentile_pass := default false (all_checks !! "mc_percentile") in
  let quality_pass := py_all (values quality_checks) in
  let passed :=
    quality_pass && (mc_score_pass && mc_percentile_pass)
    && mc_individual_tests_pass in
  {| passed := passed;
     backtest_result := backtest;
     monte_carlo_results := mc_results;
     sensitivity_results := sensitivity_results;
     criteria_checks := all_checks |}.

End Validator.

End Validation.

(** ** engine/live_trading_engine.py *)

Module LiveTrading.

Record Balance : Type := {
  total_balance : Q;
  available_balance : Q;
  margin_used : Q;
  unrealized_pnl : Q
}.

Record Order : Type := {
  order_id : string
}.

(** The adapter's [Position]: [symbol], [side], [size], [unrealized_pnl]. *)
Record AdapterPosition : Type := {
  pos_symbol : string;
  pos_side : string;
  pos_size : Q;
  pos_unrealized_pnl : Q
}.

(** A signal dictionary: the keys [_process_entry_signal] reads. *)
Record Signal : Type := {
  action : option string;
  quantity : option Q;
  stop_price : option Q;
  target_price : option Q
}.

(** The calls made on the execution adapter, with how each one ended;
    [raised = Some e] records that the call raised [e]. *)
Inductive AdapterCall : Type :=
  | GetAccountBalance (raised : option exn)
  | PlaceMarketOrder (symbol side : string) (quantity : Q)
      (raised : option exn)
  | PlaceStopMarketOrder (symbol side : string) (quantity stop_price : Q)
      (reduce_only : bool) (raised : option exn).

Definition raised_of {A} (r : result A) : option exn :=
  match r with
  | Ok _ => None
  | Raise e => Some e
  end.

(** The mutable fields of the engine that entry handling touches. *)
Record Engine : Type := {
  symbol : string;
  active_positions : gmap string AdapterPosition;
  active_stop_orders : gmap string string;
  trades_executed : Z;
  trades_skipped : Z
}.

Definition skip_trade (eng : Engine) : Engine :=
  {| symbol := symbol eng;
     active_positions := active_positions eng;
     active_stop_orders := active_stop_orders eng;
     trades_executed := trades_executed eng;
     trades_skipped := trades_skipped eng + 1 |}.

Definition count_trade (eng : Engine) : Engine :=
  {| symbol := symbol eng;
     active_positions := active_positions eng;
     active_stop_orders := active_stop_orders eng;
     trades_executed := trades_executed eng + 1;
     trades_skipped := trades_skipped eng |}.

Definition set_stop_order (id : string) (eng : Engine) : Engine :=
  {| symbol := symbol eng;
     active_positions := active_positions eng;
     active_stop_orders := <[symbol eng := id]> (active_stop_orders eng);
     trades_executed := trades_executed eng;
     trades_skipped := trades_skipped eng |}.

Section Engine.
(** The execution adapter is an external collaborator: any state [A] and
    any three operations on it, each returning normally or raising. *)
Context {A : Type}.
Variable get_account_balance : A → A * result Balance.
Variable place_market_order :
  string → string → Q → A → A * result Order.
Variable place_stop_market_order :
  string → string → Q → Q → bool → A → A * result Order.
(** [self.market_spec.calculate_margin], of [engine.market]. *)
Variable calculate_margin : Q → Q → result Q.

Record World : Type := {
  engine : Engine;
  adapter : A
}.

(** A method of the engine: it updates the world, makes adapter calls (in
    order), and returns or raises.  State changes made before a raise
    persist, as in Python. *)
Definition M (X : Type) : Type := World → World * list AdapterCall * result X.

#[local] Instance M_ret : MRet M := λ X x w, (w, [], Ok x).
#[local] Instance M_bind : MBind M := λ X Y k m w,
  match m w with
  | (w1, calls1, Ok x) =>
      let '(w2, calls2, r) := k x w1 in (w2, (calls1 ++ calls2)%list, r)
  | (w1, calls1, Raise e) => (w1, calls1, Raise e)
  end.

(** [try: body except Exception as e: handler]. *)
Definition try_except {X} (body : M X) (handler : exn → M X) : M X := λ w,
  match body w with
  | (w1, calls1, Ok x) => (w1, calls1, Ok x)
  | (w1, calls1, Raise e) =>
      let '(w2, calls2, r) := handler e w1 in (w2, (calls1 ++ calls2)%list, r)
  end.

Definition lift {X} (r : result X) : M X := λ w, (w, [], r).
Definition read {X} (f : Engine → X) : M X := λ w, (w, [], Ok (f (engine w))).
Definition update (f : Engine → Engine) : M unit := λ w,
  ({| engine := f (engine w); adapter := adapter w |}, [], Ok tt).

(** A call on the adapter, recorded with its outcome. *)
Definition call {X} (op : A → A * result X)
    (record : option exn → AdapterCall) : M X := λ w,
  let '(a, r) := op (adapter w) in
  ({| engine := engine w; adapter := a |}, [record (raised_of r)], r).

(** [LiveTradingEngine._place_stop_loss]. *)
Definition _place_stop_loss (quantity stop_price : Q) (entry_side : string)
    : M unit :=
  try_except
    (let stop_side :=
       if String.eqb entry_side "BUY" then "SELL" else "BUY" in
     sym ← read symbol;
     stop_order ← call
       (place_stop_market_order sym stop_side quantity stop_price true)
       (PlaceStopMarketOrder sym stop_side quantity stop_price true);
     update (set_stop_order (order_id stop_order)))
    (λ e, mret tt).

(** [LiveTradingEngine._process_entry_signal]; the calls on [logger] leave
    the engine untouched and are left out. *)
Definition _process_entry_signal (signal : Signal) (current_price : Q)
    : M unit :=
  let act := action signal in
  match quantity signal with
  | None => mret tt
  | Some quantity =>
    if negb (truthy quantity) || Qle_bool quantity 0 then mret tt
    else
      sym ← read symbol;
      positions ← read active_positions;
      if bool_decide (sym ∈ dom positions) then update skip_trade
      else
        balance ← call get_account_balance GetAccountBalance;
        if Qle_bool (available_balance balance) 0 then update skip_trade
        else
          margin_required ← lift (calculate_margin current_price quantity);
          if Qlt_bool (available_balance balance) margin_required
          then update skip_trade
          else
            try_except
              (let side :=
                 if bool_decide (act = Some "BUY") then "BUY" else "SELL" in
               order ← call (place_market_order sym side quantity)
                            (PlaceMarketOrder sym side quantity);
               update count_trade;;
               match stop_price signal with
               | Some stop =>
                   if truthy stop then _place_stop_loss quantity stop side
                   else mret tt
               | None => mret tt
               end)
              (λ e, update skip_trade)
  end.

(** A call of [place_market_order] that raised. *)
Definition market_order_raised (c : AdapterCall) : bool :=
  match c with
  | PlaceMarketOrder _ _ _ (Some _) => true
  | _ => false
  end.

End Engine.

End LiveTrading.

(** ** The vocabulary of the specification

    The statements of the specification, worded as it words them, to be
    compared with what the code computes. *)

Module Specified.
Import MarketEconomics Validation LiveTrading.
Local Open Scope Q_scope.

(** *** Market economics *)

(** The claim about [calculate_margin] as the specification words it.  The
    market "uses fixed per-contract margins" when it is a futures market with
    an initial margin per contract; [both] selects the stricter reading under
    which the intraday margin must be configured as well. *)
Definition fixed_margins_configured (both : bool) (self : MarketSpec) : Prop :=
  is_futures self = true
  ∧ is_Some (initial_margin_per_contract self)
  ∧ (both = true → is_Some (intraday_margin_per_contract self)).

Definition calculate_margin_as_specified (both : bool) (self : MarketSpec)
    (entry_price quantity : Q) (is_intraday : bool) : Prop :=
  (fixed_margins_configured both self → is_intraday = true →
     ∃ intraday, intraday_margin_per_contract self = Some intraday
       ∧ calculate_margin self entry_price quantity is_intraday
         = Ok (Qabs quantity * intraday))
  ∧ (fixed_margins_configured both self → is_intraday = false →
     ∃ initial, initial_margin_per_contract self = Some initial
       ∧ calculate_margin self entry_price quantity is_intraday
         = Ok (Qabs quantity * initial))
  ∧ (¬ fixed_margins_configured both self →
     calculate_margin self entry_price quantity is_intraday
     = py_div (entry_price * Qabs quantity) (leverage self)).

(** The claim about [calculate_maintenance_margin] as the specification
    words it; the initial-margin formula is [calculate_margin] with the
    overnight (non-intraday) per-contract margin. *)
Definition calculate_maintenance_margin_as_specified (self : MarketSpec)
    (entry_price quantity : Q) (current_price : option Q) : Prop :=
  (∀ rate, maintenance_margin_rate self = Some rate →
     calculate_maintenance_margin self entry_price quantity current_price
     = Ok (py_or current_price entry_price * Qabs quantity * rate))
  ∧ (maintenance_margin_rate self = None →
     calculate_maintenance_margin self entry_price quantity current_price
     = calculate_margin self entry_price quantity false).

(** The result of [can_afford_position] at a given commission rate, taken as
    it is: the required cash is the margin plus
    [entry_price * quantity * rate]. *)
Definition can_afford_at (self : Broker)
    (entry_price quantity available_cash rate : Q) : result (bool * Q) :=
  margin ← calculate_margin_required self entry_price quantity;
  let required_cash := margin + entry_price * quantity * rate in
  Ok (Qle_bool required_cash available_cash, required_cash).

(** The affordable quantity at a given commission rate, taken as it is. *)
Definition affordable_qty_at (self : Broker)
    (entry_price available_cash rate : Q) : result Q :=
  inv_leverage ← py_div 1 (leverage (market_spec self));
  py_div available_cash (entry_price * (inv_leverage + rate)).

(** The result of [adjust_quantity_for_cash] at a given commission rate,
    taken as it is. *)
Definition adjusted_quantity_at (self : Broker)
    (entry_price desired_quantity available_cash rate : Q) : result Q :=
  bound ← affordable_qty_at self entry_price available_cash rate;
  Ok (py_min desired_quantity bound).

(** Two results are the same: the same exception, or numerically equal
    values. *)
Definition same_quantity (r1 r2 : result Q) : Prop :=
  match r1, r2 with
  | Ok q1, Ok q2 => q1 == q2
  | Raise e1, Raise e2 => e1 = e2
  | _, _ => False
  end.

Definition same_answer (r1 r2 : result (bool * Q)) : Prop :=
  match r1, r2 with
  | Ok (can1, cash1), Ok (can2, cash2) => can1 = can2 ∧ cash1 == cash2
  | Raise e1, Raise e2 => e1 = e2
  | _, _ => False
  end.

(** The claim about the maximum affordable quantity as the specification
    words it, the commission rate being the one passed: the bound is
    [available_cash / (entry_price * (1 / leverage + commission_rate))], it
    spends the cash exactly, and a desired quantity of at least the bound is
    cut down to it. *)
Definition max_affordable_quantity_as_specified (self : Broker)
    (entry_price desired_quantity available_cash commission_rate : Q)
    : Prop :=
  let lev := leverage (market_spec self) in
  0 < entry_price → 0 < lev → 0 <= commission_rate →
  ∃ bound,
    max_affordable_qty self entry_price available_cash (Some commission_rate)
    = Ok bound
    ∧ bound == available_cash / (entry_price * (1 / lev + commission_rate))
    ∧ bound * entry_price / lev + entry_price * bound * commission_rate
      == available_cash
    ∧ (bound <= desired_quantity →
       same_quantity
         (adjust_quantity_for_cash self entry_price desired_quantity
            available_cash (Some commission_rate))
         (Ok bound)).

(** The claim about an explicit commission rate of zero as the specification
    words it: for a market with a positive commission rate, the result with
    the rate [0.0] is the result with the rate omitted, and it is not the
    zero-commission result. *)
Definition explicit_zero_as_specified (self : Broker)
    (entry_price quantity desired_quantity available_cash : Q) : Prop :=
  0 < commission_rate (market_spec self) →
  (can_afford_position self entry_price quantity available_cash (Some 0)
   = can_afford_position self entry_price quantity available_cash None
   ∧ ¬ same_answer
         (can_afford_position self entry_price quantity available_cash
            (Some 0))
         (can_afford_at self entry_price quantity available_cash 0))
  ∧ (adjust_quantity_for_cash self entry_price desired_quantity
       available_cash (Some 0)
     = adjust_quantity_for_cash self entry_price desired_quantity
         available_cash None
     ∧ ¬ same_quantity
           (adjust_quantity_for_cash self entry_price desired_quantity
              available_cash (Some 0))
           (adjusted_quantity_at self entry_price desired_quantity
              available_cash 0)).

(** *** Training validation *)

Local Close Scope Q_scope.

(** The claim about one test as the specification words it: a test that is
    not skipped and has p-values passes exactly when strictly more than half
    of them are at most the maximal p-value. *)
Definition test_passes_as_specified (max_p : Q) (res : TestResult)
    (test_pass : bool) : Prop :=
  default false (skipped res) = false →
  dict_truthy (default ∅ (p_values res)) = true →
  (test_pass = true
   ↔ size (default ∅ (p_values res))
     < 2 * passing_metrics max_p (default ∅ (p_values res))).

(** At least half of the p-values of a test result are at most [max_p]. *)
Definition half_or_more (max_p : Q) (res : TestResult) : Prop :=
  size (default ∅ (p_values res))
  ≤ 2 * passing_metrics max_p (default ∅ (p_values res)).

(** The three Monte Carlo tests. *)
Definition test_names : list string :=
  ["permutation"; "bootstrap"; "randomized_entry"].

(** The suitability table marks the test of a given name suitable. *)
Definition marked_suitable (table : gmap string TestSuitability)
    (name : string) : bool :=
  match table !! name with
  | Some suit => suitable suit
  | None => false
  end.

(** The result of the test of a given name. *)
Definition result_of (mc : MonteCarloSuiteResult) (name : string)
    : TestResult :=
  if String.eqb name "permutation" then permutation mc
  else if String.eqb name "bootstrap" then bootstrap mc
  else randomized_entry mc.

(** The test of a given name passed: it was not skipped (the randomized-entry
    test always runs), it has p-values, and at least half of them are at most
    the maximal p-value. *)
Definition test_passed (criteria : TrainingValidationCriteria)
    (mc : MonteCarloSuiteResult) (name : string) : bool :=
  let res := result_of mc name in
  let pv := default ∅ (p_values res) in
  (String.eqb name "randomized_entry" || negb (default false (skipped res)))
  && (negb (Nat.eqb (size pv) 0)
      && Nat.leb (size pv)
           (2 * passing_metrics (monte_carlo_p_value_max criteria) pv)).

(** [n]: the number of tests the table marks suitable. *)
Definition number_suitable (table : gmap string TestSuitability) : nat :=
  length (List.filter (marked_suitable table) test_names).

(** [k]: the number of tests marked suitable that passed. *)
Definition suitable_passed (criteria : TrainingValidationCriteria)
    (mc : MonteCarloSuiteResult) (table : gmap string TestSuitability)
    : nat :=
  length (List.filter
            (λ name, marked_suitable table name
                     && test_passed criteria mc name)
            test_names).

(** Every key [_check_sensitivity] sets starts with ["sensitivity_"]. *)
Definition sensitivity_named (key : string) : Prop :=
  ∃ rest, key = ("sensitivity_" ++ rest)%string.

(** *** Live entry handling *)

(** No call in the list is a [place_market_order] that raised. *)
Definition quiet (calls : list AdapterCall) : Prop :=
  existsb market_order_raised calls = false.

End Specified.

(** ** Sample data

    Concrete markets, results and adapters at which the properties below are
    evaluated. *)

Module Samples.
Import MarketEconomics.

(** A forex market at 50:1, as a market profile may describe it. *)
Definition eurusd : MarketSpec :=
  {| symbol := "EURUSD"; exchange := "oanda"; asset_class := "forex";
     market_type := "spot"; leverage := 50;
     contract_size := Some 100000%Q; pip_value := Some (1 # 10000)%Q;
     min_trade_size := (1 # 100); price_precision := 5;
     quantity_precision := 2; commission_rate := (4 # 10000);
     commission_per_contract := None; slippage_ticks := 0;
     initial_margin_per_contract := None;
     intraday_margin_per_contract := None;
     maintenance_margin_rate := Some (5 # 1000)%Q;
     margin_mode := "cross" |}.

(** A traditional futures contract with an overnight margin only. *)
Definition es_overnight_only : MarketSpec :=
  {| symbol := "ES"; exchange := "cme"; asset_class := "futures";
     market_type := "futures"; leverage := 20;
     contract_size := Some 50%Q; pip_value := None;
     min_trade_size := 1; price_precision := 2;
     quantity_precision := 0; commission_rate := (4 # 10000);
     commission_per_contract := Some 2%Q; slippage_ticks := 0;
     initial_margin_per_contract := Some 12000%Q;
     intraday_margin_per_contract := None;
     maintenance_margin_rate := None;
     margin_mode := "cross" |}.

(** The same contract with a day-trading margin. *)
Definition es_day : MarketSpec :=
  {| symbol := "ES"; exchange := "cme"; asset_class := "futures";
     market_type := "futures"; leverage := 20;
     contract_size := Some 50%Q; pip_value := None;
     min_trade_size := 1; price_precision := 2;
     quantity_precision := 0; commission_rate := (4 # 10000);
     commission_per_contract := Some 2%Q; slippage_ticks := 0;
     initial_margin_per_contract := Some 12000%Q;
     intraday_margin_per_contract := Some 500%Q;
     maintenance_margin_rate := None;
     margin_mode := "cross" |}.

(** A leverage-based perpetual with a maintenance-margin rate. *)
Definition btc_perp : MarketSpec :=
  {| symbol := "BTCUSDT"; exchange := "binance"; asset_class := "futures";
     market_type := "futures"; leverage := 10;
     contract_size := None; pip_value := None;
     min_trade_size := (1 # 1000); price_precision := 2;
     quantity_precision := 3; commission_rate := (4 # 10000);
     commission_per_contract := None; slippage_ticks := 0;
     initial_margin_per_contract := None;
     intraday_margin_per_contract := None;
     maintenance_margin_rate := Some (5 # 1000)%Q;
     margin_mode := "isolated" |}.

Definition eurusd_broker : Broker :=
  {| market_spec := eurusd; margin_call_level := 1 |}.

Import Validation.

Definition sample_criteria : TrainingValidationCriteria :=
  {| training_min_profit_factor := (15 # 10);
     training_min_sharpe := 1;
     training_min_trades := 30;
     min_mc_score := 60;
     min_mc_percentile := 70;
     monte_carlo_p_value_max := (5 # 100);
     sensitivity_max_cv := (3 # 10) |}.

(** Two metrics, of which exactly one is significant at 5%. *)
Definition one_of_two : TestResult :=
  {| skipped := Some false;
     p_values := Some (<["final_pnl" := (1 # 100)%Q]>
                      (<["sharpe_ratio" := (9 # 10)%Q]> ∅)) |}.

(** Three metrics, of which two are significant at 5%. *)
Definition two_of_three : TestResult :=
  {| skipped := Some false;
     p_values := Some (<["final_pnl" := (1 # 100)%Q]>
                      (<["sharpe_ratio" := (2 # 100)%Q]>
                      (<["profit_factor" := (9 # 10)%Q]> ∅))) |}.

(** Three metrics, none significant. *)
Definition none_of_three : TestResult :=
  {| skipped := Some false;
     p_values := Some (<["final_pnl" := (5 # 10)%Q]>
                      (<["sharpe_ratio" := (6 # 10)%Q]>
                      (<["profit_factor" := (9 # 10)%Q]> ∅))) |}.

Definition was_skipped : TestResult :=
  {| skipped := Some true; p_values := None |}.

Definition good_combined : Combined :=
  {| score := Some 80%Q; percentile := Some 90%Q |}.

Definition suit (b : bool) : TestSuitability :=
  {| suitable := b; reason := "profile"; alternatives := []; priority := (1 # 2) |}.

Definition suitability (perm boot rand : bool)
    : gmap string TestSuitability :=
  <["permutation" := suit perm]>
  (<["bootstrap" := suit boot]>
  (<["randomized_entry" := suit rand]> ∅)).

Definition suite (perm boot rand : TestResult) : MonteCarloSuiteResult :=
  {| permutation := perm; bootstrap := boot; randomized_entry := rand;
     combined := good_combined |}.

Import LiveTrading.

Definition buy_signal : Signal :=
  {| action := Some "BUY"; quantity := Some 2%Q;
     stop_price := Some 95%Q; target_price := None |}.

Definition flat_engine : Engine :=
  {| symbol := "BTCUSDT"; active_positions := ∅; active_stop_orders := ∅;
     trades_executed := 3; trades_skipped := 1 |}.

(** An exchange whose state counts the requests it received: the balance is
    always available, and every order is refused. *)
Definition funded : nat → nat * result Balance := λ n,
  (S n, Ok {| total_balance := 1000; available_balance := 1000;
              margin_used := 0; unrealized_pnl := 0 |}).

Definition refuse_market_order
    : string → string → Q → nat → nat * result Order :=
  λ _ _ _ n, (S n, Raise (Exception "order rejected")).

Definition refuse_stop_order
    : string → string → Q → Q → bool → nat → nat * result Order :=
  λ _ _ _ _ _ n, (S n, Raise (Exception "order rejected")).

Definition tenth_margin (price quantity : Q) : result Q :=
  py_div (price * quantity) 10.

End Samples.

(** ** engine/market_spec.py: position sizing *)

Module MarketSizing.
Import MarketEconomics.

(** [sub in s] on strings. *)
Fixpoint py_contains (sub s : string) : bool :=
  String.prefix sub s
  || match s with
     | EmptyString => false
     | String _ rest => py_contains sub rest
     end.

(** [s[-3:]]: the last three characters, or all of a shorter string. *)
Definition py_last3 (s : string) : string :=
  String.substring (String.length s - 3) 3 s.

Definition is_forex (self : MarketSpec) : bool :=
  String.eqb (asset_class self) "forex".

(** ['USD' in self.symbol[-3:]]. *)
Definition usd_is_quote (self : MarketSpec) : bool :=
  py_contains "USD" (py_last3 (symbol self)).

(** [self.symbol.startswith('USD')]. *)
Definition usd_is_base (self : MarketSpec) : bool :=
  String.prefix "USD" (symbol self).

(** [MarketSpec.calculate_pip_value_per_lot]. *)
Definition calculate_pip_value_per_lot (self : MarketSpec)
    (entry_price : Q) : result Q :=
  match is_forex self, contract_size self with
  | true, Some contract =>
      if usd_is_quote self then Ok 10%Q
      else if usd_is_base self then
        let pip_size := py_or (pip_value self) (1 # 10000) in
        let pip_size :=
          if py_contains "JPY" (symbol self) then (1 # 100)%Q else pip_size in
        py_div (contract * pip_size) entry_price
      else Ok 10%Q
  | _, _ => Ok 0%Q
  end.

(** [MarketSpec.calculate_pip_value_per_unit]. *)
Definition calculate_pip_value_per_unit (self : MarketSpec)
    (entry_price : Q) : result Q :=
  match is_forex self, contract_size self with
  | true, Some contract =>
      pip_value_per_lot ← calculate_pip_value_per_lot self entry_price;
      if Qle_bool pip_value_per_lot 0 then Ok 0%Q
      else py_div pip_value_per_lot contract
  | _, _ => Ok 0%Q
  end.

(** [MarketSpec.calculate_lot_size_from_risk]. *)
Definition calculate_lot_size_from_risk (self : MarketSpec)
    (risk_amount stop_loss_pips entry_price : Q) : result Q :=
  if negb (is_forex self) then Ok 0%Q
  else
    pip_value_per_lot ← calculate_pip_value_per_lot self entry_price;
    if Qle_bool pip_value_per_lot 0 || Qle_bool stop_loss_pips 0 then Ok 0%Q
    else py_div risk_amount (stop_loss_pips * pip_value_per_lot).

(** [MarketSpec.calculate_quantity_from_risk]. *)
Definition calculate_quantity_from_risk (self : MarketSpec)
    (risk_amount stop_loss_pips entry_price : Q) : result Q :=
  if negb (is_forex self) then Ok 0%Q
  else
    pip_value_per_unit ← calculate_pip_value_per_unit self entry_price;
    if Qle_bool pip_value_per_unit 0 || Qle_bool stop_loss_pips 0 then Ok 0%Q
    else py_div risk_amount (stop_loss_pips * pip_value_per_unit).

(** [MarketSpec.lot_size_to_units]. *)
Definition lot_size_to_units (self : MarketSpec) (lot_size : Q) : Q :=
  match is_forex self, contract_size self with
  | true, Some contract => (lot_size * contract)%Q
  | _, _ => lot_size
  end.

End MarketSizing.

(** ** validation/training_validator.py: the legacy check and the reasons *)

Module ValidationReport.
Import Validation.

(** The suitability table of [_check_monte_carlo_suite]: every test suitable
    ("Legacy mode"). *)
Definition legacy_suitability : gmap string TestSuitability :=
  <["randomized_entry" :=
      {| suitable := true; reason := "Legacy mode"; alternatives := [];
         priority := (5 # 10) |}]>
  (<["bootstrap" :=
      {| suitable := true; reason := "Legacy mode"; alternatives := [];
         priority := (3 # 10) |}]>
  (<["permutation" :=
      {| suitable := true; reason := "Legacy mode"; alternatives := [];
         priority := (2 # 10) |}]> ∅)).

(** [TrainingValidator._check_monte_carlo_suite]. *)
Definition _check_monte_carlo_suite (criteria : TrainingValidationCriteria)
    (mc_results : MonteCarloSuiteResult) : gmap string bool :=
  _check_monte_carlo_suite_conditional criteria mc_results legacy_suitability.

(** The loop of [_check_sensitivity] over the analyses, from the checks
    collected so far. *)
Definition per_parameter (criteria : TrainingValidationCriteria)
    (acc : gmap string bool) (items : list (string * gmap string Q))
    : gmap string bool :=
  foldl (λ (checks : gmap string bool) item,
           <[sensitivity_key item.1 := cv_within criteria item.2]> checks)
        acc items.

Section Reasons.
Variable criteria : TrainingValidationCriteria.
(** Python's formatting of numbers inside f-strings: [format_float spec x]
    for [f"{x:spec}"] (the empty [spec] for [f"{x}"]) and [format_int n] for
    [f"{n}"]. *)
Variable format_float : string → Q → string.
Variable format_int : Z → string.

Definition reason_profit_factor (profit_factor : Q) : string :=
  "Training PF " ++ format_float ".2f" profit_factor ++ " < "
  ++ format_float "" (training_min_profit_factor criteria).

Definition reason_sharpe (sharpe_ratio : Q) : string :=
  "Training Sharpe " ++ format_float ".2f" sharpe_ratio ++ " < "
  ++ format_float "" (training_min_sharpe criteria).

Definition reason_trades (total : Z) : string :=
  "Training trades " ++ format_int total ++ " < "
  ++ format_int (training_min_trades criteria).

Definition reason_mc_score (combined_score : Q) : string :=
  "Monte Carlo robustness score " ++ format_float ".2f" combined_score
  ++ " < " ++ format_float "" (min_mc_score criteria).

Definition reason_mc_percentile (combined_percentile : Q) : string :=
  "Monte Carlo percentile " ++ format_float ".1f" combined_percentile
  ++ " < " ++ format_float "" (min_mc_percentile criteria).

Definition reason_individual_tests (suitable_count : nat) : string :=
  if Nat.eqb suitable_count 2 then
    "Monte Carlo individual tests: Required at least 1/2 suitable tests to pass (majority rule)"
  else if Nat.eqb suitable_count 3 then
    "Monte Carlo individual tests: Required at least 2/3 suitable tests to pass"
  else "Monte Carlo individual tests: Required suitable test(s) to pass".

Definition reason_sensitivity : string :=
  "Parameter sensitivity too high (strategy not robust)".

(** [[reason] if not all_checks.get(key, True) else []]. *)
Definition reason_unless (all_checks : gmap string bool) (key : string)
    (reason : string) : list string :=
  if negb (default true (all_checks !! key)) then [reason] else [].

(** The [failure_reasons] that [TrainingValidator.validate] collects, from
    the same inputs as [validate]; [all_checks] and [sensitivity_checks] are
    the ones [validate] computes. *)
Definition failure_reasons
    (backtest : BacktestResult)
    (enhanced_metrics : gmap string Q)
    (test_suitability : gmap string TestSuitability)
    (mc_results : MonteCarloSuiteResult)
    (run_sensitivity : bool)
    (sensitivity_params : option (gmap string (list Q)))
    (sensitivity_run : SensitivityResults) : list string :=
  let verdict :=
    validate criteria backtest enhanced_metrics test_suitability mc_results
      run_sensitivity sensitivity_params sensitivity_run in
  let all_checks := criteria_checks verdict in
  let sensitivity_checks :=
    _check_sensitivity criteria (sensitivity_results verdict) in
  let profit_factor := default 0%Q (enhanced_metrics !! "profit_factor") in
  let sharpe_ratio := default 0%Q (enhanced_metrics !! "sharpe_ratio") in
  let combined_score := default 0%Q (score (combined mc_results)) in
  let combined_percentile :=
    default 0%Q (percentile (combined mc_results)) in
  let suitable_count := length (suitable_tests test_suitability) in
  (reason_unless all_checks "min_profit_factor"
     (reason_profit_factor profit_factor)
   ++ reason_unless all_checks "min_sharpe" (reason_sharpe sharpe_ratio)
   ++ reason_unless all_checks "min_trades"
        (reason_trades (total_trades backtest))
   ++ reason_unless all_checks "mc_score" (reason_mc_score combined_score)
   ++ reason_unless all_checks "mc_percentile"
        (reason_mc_percentile combined_percentile)
   ++ reason_unless all_checks "mc_individual_tests"
        (reason_individual_tests suitable_count)
   ++ (if dict_truthy sensitivity_checks
       then reason_unless all_checks "sensitivity_cv" reason_sensitivity
       else []))%list.

End Reasons.

End ValidationReport.

(** ** engine/live_trading_engine.py: the outcomes of an entry signal *)

Module EntryRuns.
Import LiveTrading.

Section Runs.
Context {A : Type}.
Variable get_account_balance : A → A * result Balance.
Variable place_market_order : string → string → Q → A → A * result Order.
Variable place_stop_market_order :
  string → string → Q → Q → bool → A → A * result Order.
Variable calculate_margin : Q → Q → result Q.
Variable signal : Signal.
Variable current_price : Q.
Variable w : World (A:=A).

Definition at_adapter (eng : Engine) (a : A) : World :=
  {| engine := eng; adapter := a |}.

(** The side of the entry order and of its stop. *)
Definition entry_side : string :=
  if bool_decide (action signal = Some "BUY") then "BUY" else "SELL".
Definition stop_side : string :=
  if String.eqb entry_side "BUY" then "SELL" else "BUY".

(** The signal carries a positive quantity. *)
Definition entry_quantity (q : Q) : Prop :=
  quantity signal = Some q ∧ (0 < q)%Q.

(** The ways a run of [_process_entry_signal] can go, one for each path
    through the method, with the world, the adapter calls and the result it
    ends in. *)
Inductive entry_run : World (A:=A) * list AdapterCall * result unit → Prop :=
  | run_invalid_quantity :
      (∀ q, ¬ entry_quantity q) →
      entry_run (w, [], Ok tt)
  | run_position_held q :
      entry_quantity q →
      symbol (engine w) ∈ dom (active_positions (engine w)) →
      entry_run (at_adapter (skip_trade (engine w)) (adapter w), [], Ok tt)
  | run_balance_raised q a1 e :
      entry_quantity q →
      symbol (engine w) ∉ dom (active_positions (engine w)) →
      get_account_balance (adapter w) = (a1, Raise e) →
      entry_run (at_adapter (engine w) a1,
                 [GetAccountBalance (Some e)], Raise e)
  | run_no_balance q a1 balance :
      entry_quantity q →
      symbol (engine w) ∉ dom (active_positions (engine w)) →
      get_account_balance (adapter w) = (a1, Ok balance) →
      (available_balance balance <= 0)%Q →
      entry_run (at_adapter (skip_trade (engine w)) a1,
                 [GetAccountBalance None], Ok tt)
  | run_margin_raised q a1 balance e :
      entry_quantity q →
      symbol (engine w) ∉ dom (active_positions (engine w)) →
      get_account_balance (adapter w) = (a1, Ok balance) →
      (0 < available_balance balance)%Q →
      calculate_margin current_price q = Raise e →
      entry_run (at_adapter (engine w) a1, [GetAccountBalance None], Raise e)
  | run_no_margin q a1 balance margin :
      entry_quantity q →
      symbol (engine w) ∉ dom (active_positions (engine w)) →
      get_account_balance (adapter w) = (a1, Ok balance) →
      (0 < available_balance balance)%Q →
      calculate_margin current_price q = Ok margin →
      (available_balance balance < margin)%Q →
      entry_run (at_adapter (skip_trade (engine w)) a1,
                 [GetAccountBalance None], Ok tt)
  | run_order_raised q a1 balance margin a2 e :
      entry_quantity q →
      symbol (engine w) ∉ dom (active_positions (engine w)) →
      get_account_balance (adapter w) = (a1, Ok balance) →
      (0 < available_balance balance)%Q →
      calculate_margin current_price q = Ok margin →
      (margin <= available_balance balance)%Q →
      place_market_order (symbol (engine w)) entry_side q a1
      = (a2, Raise e) →
      entry_run (at_adapter (skip_trade (engine w)) a2,
                 [GetAccountBalance None;
                  PlaceMarketOrder (symbol (engine w)) entry_side q (Some e)],
                 Ok tt)
  | run_executed q a1 balance margin a2 order :
      entry_quantity q →
      symbol (engine w) ∉ dom (active_positions (engine w)) →
      get_account_balance (adapter w) = (a1, Ok balance) →
      (0 < available_balance balance)%Q →
      calculate_margin current_price q = Ok margin →
      (margin <= available_balance balance)%Q →
      place_market_order (symbol (engine w)) entry_side q a1
      = (a2, Ok order) →
      (∀ stop, stop_price signal = Some stop → (stop == 0)%Q) →
      entry_run (at_adapter (count_trade (engine w)) a2,
                 [GetAccountBalance None;
                  PlaceMarketOrder (symbol (engine w)) entry_side q None],
                 Ok tt)
  | run_protected q a1 balance margin a2 order stop a3 stop_order :
      entry_quantity q →
      symbol (engine w) ∉ dom (active_positions (engine w)) →
      get_account_balance (adapter w) = (a1, Ok balance) →
      (0 < available_balance balance)%Q →
      calculate_margin current_price q = Ok margin →
      (margin <= available_balance balance)%Q →
      place_market_order (symbol (engine w)) entry_side q a1
      = (a2, Ok order) →
      stop_price signal = Some stop → ¬ (stop == 0)%Q →
      place_stop_market_order (symbol (engine w)) stop_side q stop true a2
      = (a3, Ok stop_order) →
      entry_run (at_adapter
                   (set_stop_order (order_id stop_order)
                      (count_trade (engine w))) a3,
                 [GetAccountBalance None;
                  PlaceMarketOrder (symbol (engine w)) entry_side q None;
                  PlaceStopMarketOrder (symbol (engine w)) stop_side q stop
                    true None],
                 Ok tt)
  | run_unprotected q a1 balance margin a2 order stop a3 e :
      entry_quantity q →
      symbol (engine w) ∉ dom (active_positions (engine w)) →
      get_account_balance (adapter w) = (a1, Ok balance) →
      (0 < available_balance balance)%Q →
      calculate_margin current_price q = Ok margin →
      (margin <= available_balance balance)%Q →
      place_market_order (symbol (engine w)) entry_side q a1
      = (a2, Ok order) →
      stop_price signal = Some stop → ¬ (stop == 0)%Q →
      place_stop_market_order (symbol (engine w)) stop_side q stop true a2
      = (a3, Raise e) →
      entry_run (at_adapter (count_trade (engine w)) a3,
                 [GetAccountBalance None;
                  PlaceMarketOrder (symbol (engine w)) entry_side q None;
                  PlaceStopMarketOrder (symbol (engine w)) stop_side q stop
                    true (Some e)],
                 Ok tt).

End Runs.

(** A call of [place_market_order] that returned. *)
Definition market_order_filled (c : AdapterCall) : bool :=
  match c with
  | PlaceMarketOrder _ _ _ None => true
  | _ => false
  end.

End EntryRuns.

(** ** engine/live_trading_engine.py: safety limits, positions and exits *)

Module LiveControl.
Import LiveTrading.

(** The safety limits of the engine and the levels they are measured
    from. *)
Record Limits : Type := {
  max_daily_loss_pct : Q;
  max_drawdown_pct : Q;
  daily_start_balance : Q;
  peak_equity : Q
}.

Definition set_peak_equity (equity : Q) (l : Limits) : Limits :=
  {| max_daily_loss_pct := max_daily_loss_pct l;
     max_drawdown_pct := max_drawdown_pct l;
     daily_start_balance := daily_start_balance l;
     peak_equity := equity |}.

Definition set_active_positions (positions : gmap string AdapterPosition)
    (eng : Engine) : Engine :=
  {| symbol := symbol eng;
     active_positions := positions;
     active_stop_orders := active_stop_orders eng;
     trades_executed := trades_executed eng;
     trades_skipped := trades_skipped eng |}.

(** [self.active_positions.clear()] and [self.active_stop_orders.clear()]. *)
Definition clear_positions (eng : Engine) : Engine :=
  set_active_positions ∅ eng.

Definition clear_stop_orders (eng : Engine) : Engine :=
  {| symbol := symbol eng;
     active_positions := active_positions eng;
     active_stop_orders := ∅;
     trades_executed := trades_executed eng;
     trades_skipped := trades_skipped eng |}.

(** The calls made on the adapter by the whole engine: those of entry
    handling, and the three that only the other methods make. *)
Inductive LiveCall : Type :=
  | Known (c : AdapterCall)
  | GetPositions (symbol : string) (raised : option exn)
  | PlaceReduceOnlyMarketOrder (symbol side : string) (quantity : Q)
      (raised : option exn)
  | CancelOrder (symbol order_id : string) (raised : option exn).

(** A call without its outcome. *)
Definition attempted (c : LiveCall) : LiveCall :=
  match c with
  | Known (GetAccountBalance _) => Known (GetAccountBalance None)
  | Known (PlaceMarketOrder sym side q _) =>
      Known (PlaceMarketOrder sym side q None)
  | Known (PlaceStopMarketOrder sym side q stop reduce_only _) =>
      Known (PlaceStopMarketOrder sym side q stop reduce_only None)
  | GetPositions sym _ => GetPositions sym None
  | PlaceReduceOnlyMarketOrder sym side q _ =>
      PlaceReduceOnlyMarketOrder sym side q None
  | CancelOrder sym id _ => CancelOrder sym id None
  end.

(** A call that places or cancels an order, as opposed to a query. *)
Definition is_order (c : LiveCall) : bool :=
  match c with
  | Known (GetAccountBalance _) | GetPositions _ _ => false
  | _ => true
  end.

(** [abs(pos.size) > 0.0001]. *)
Definition is_open (pos : AdapterPosition) : bool :=
  Qlt_bool (1 / 10000) (Qabs (pos_size pos)).

(** [{pos.symbol: pos for pos in positions if abs(pos.size) > 0.0001}]. *)
Definition positions_by_symbol (positions : list AdapterPosition)
    : gmap string AdapterPosition :=
  foldl (λ acc pos, <[pos_symbol pos := pos]> acc) ∅
    (List.filter is_open positions).

(** The side of the order that closes or protects a position. *)
Definition closing_side (position : AdapterPosition) : string :=
  if String.eqb (pos_side position) "LONG" then "SELL" else "BUY".

(** The calls [_close_all_positions] attempts for a held position and for a
    stop order. *)
Definition close_order (item : string * AdapterPosition) : LiveCall :=
  PlaceReduceOnlyMarketOrder item.1 (closing_side item.2)
    (pos_size item.2) None.

Definition cancellation (item : string * string) : LiveCall :=
  CancelOrder item.1 item.2 None.

Section Control.
(** The execution adapter, with the two operations entry handling does not
    use; [place_market_order] takes its optional [reduce_only]. *)
Context {A : Type}.
Variable get_account_balance : A → A * result Balance.
Variable get_positions : string → A → A * result (list AdapterPosition).
Variable place_market_order :
  string → string → Q → option bool → A → A * result Order.
Variable place_stop_market_order :
  string → string → Q → Q → bool → A → A * result Order.
Variable cancel_order : string → string → A → A * result unit.
Variable calculate_margin : Q → Q → result Q.
(** [format_float spec x] is Python's [f"{x:spec}"]. *)
Variable format_float : string → Q → string.
(** [d.items()]: Python enumerates a dictionary in the order its keys were
    inserted, which a [gmap] does not keep; [items] stands for that
    enumeration. *)
Variable items : ∀ V : Type, gmap string V → list (string * V).

Record Live : Type := {
  world : World (A:=A);
  limits : Limits
}.

Definition N (X : Type) : Type := Live → Live * list LiveCall * result X.

#[local] Instance N_ret : MRet N := λ X x s, (s, [], Ok x).
#[local] Instance N_bind : MBind N := λ X Y k m s,
  match m s with
  | (s1, calls1, Ok x) =>
      let '(s2, calls2, r) := k x s1 in (s2, (calls1 ++ calls2)%list, r)
  | (s1, calls1, Raise e) => (s1, calls1, Raise e)
  end.

(** [try: body except Exception as e: handler]. *)
Definition attempt {X} (body : N X) (handler : exn → N X) : N X := λ s,
  match body s with
  | (s1, calls1, Ok x) => (s1, calls1, Ok x)
  | (s1, calls1, Raise e) =>
      let '(s2, calls2, r) := handler e s1 in (s2, (calls1 ++ calls2)%list, r)
  end.

(** A method of entry handling, run inside the whole engine. *)
Definition known {X} (m : M X) : N X := λ s,
  let '(w, calls, r) := m (world s) in
  ({| world := w; limits := limits s |}, Known <$> calls, r).

Definition read_limits {X} (f : Limits → X) : N X := λ s,
  (s, [], Ok (f (limits s))).
Definition update_limits (f : Limits → Limits) : N unit := λ s,
  ({| world := world s; limits := f (limits s) |}, [], Ok tt).

(** A call on the adapter, recorded with its outcome. *)
Definition request {X} (op : A → A * result X)
    (record : option exn → LiveCall) : N X := λ s,
  let '(a, r) := op (adapter (world s)) in
  ({| world := {| engine := engine (world s); adapter := a |};
      limits := limits s |},
   [record (raised_of r)], r).

(** [for x in xs: body]. *)
Fixpoint for_each {X} (body : X → N unit) (xs : list X) : N unit :=
  match xs with
  | [] => mret tt
  | x :: xs => body x;; for_each body xs
  end.

(** [LiveTradingEngine.update_positions]; the sum of the unrealised results
    is computed into a local that nothing reads, and is left out. *)
Definition update_positions : N unit :=
  sym ← known (read symbol);
  positions ← request (get_positions sym) (GetPositions sym);
  known (update (set_active_positions (positions_by_symbol positions))).

(** The reasons [check_safety_limits] gives for stopping. *)
Definition daily_loss_reason (daily_loss_pct : Q) : string :=
  "Daily loss limit exceeded: " ++ format_float ".2f" daily_loss_pct ++ "%".
Definition drawdown_reason (drawdown_pct : Q) : string :=
  "Drawdown limit exceeded: " ++ format_float ".2f" drawdown_pct ++ "%".

(** [LiveTradingEngine.check_safety_limits]. *)
Definition check_safety_limits : N (bool * option string) :=
  balance ← known (call get_account_balance GetAccountBalance);
  let current_equity := total_balance balance in
  start ← read_limits daily_start_balance;
  daily_loss ← known (lift (py_div (start - current_equity) start));
  let daily_loss_pct := (daily_loss * 100)%Q in
  max_loss ← read_limits max_daily_loss_pct;
  if Qle_bool max_loss daily_loss_pct
  then mret (true, Some (daily_loss_reason daily_loss_pct))
  else
    peak ← read_limits peak_equity;
    (if Qlt_bool peak current_equity
     then update_limits (set_peak_equity current_equity)
     else mret tt);;
    peak ← read_limits peak_equity;
    drawdown ← known (lift (py_div (peak - current_equity) peak));
    let drawdown_pct := (drawdown * 100)%Q in
    max_drawdown ← read_limits max_drawdown_pct;
    if Qle_bool max_drawdown drawdown_pct
    then mret (true, Some (drawdown_reason drawdown_pct))
    else mret (false, None).

(** The two loop bodies of [_close_all_positions]. *)
Definition close_position (item : string * AdapterPosition) : N unit :=
  let '(sym, position) := item in
  attempt
    (let side := closing_side position in
     request (place_market_order sym side (pos_size position) (Some true))
       (PlaceReduceOnlyMarketOrder sym side (pos_size position));;
     mret tt)
    (λ e, mret tt).

Definition cancel_stop_order (item : string * string) : N unit :=
  let '(sym, order_id) := item in
  attempt (request (cancel_order sym order_id) (CancelOrder sym order_id))
    (λ e, mret tt).

(** [LiveTradingEngine._close_all_positions]. *)
Definition _close_all_positions : N unit :=
  positions ← known (read active_positions);
  for_each close_position (items _ positions);;
  stop_orders ← known (read active_stop_orders);
  for_each cancel_stop_order (items _ stop_orders);;
  known (update clear_positions);;
  known (update clear_stop_orders).

(** [LiveTradingEngine._update_stop_loss]. *)
Definition _update_stop_loss (signal : Signal) (current_price : Q)
    : N unit :=
  sym ← known (read symbol);
  positions ← known (read active_positions);
  match positions !! sym with
  | None => mret tt
  | Some position =>
    match stop_price signal with
    | None => mret tt
    | Some new_stop_price =>
      if negb (truthy new_stop_price) then mret tt
      else
        stop_orders ← known (read active_stop_orders);
        match stop_orders !! sym with
        | Some order_id =>
            attempt
              (request (cancel_order sym order_id) (CancelOrder sym order_id))
              (λ e, mret tt)
        | None => mret tt
        end;;
        let stop_side := closing_side position in
        attempt
          (stop_order ← known (call
             (place_stop_market_order sym stop_side (pos_size position)
                new_stop_price true)
             (PlaceStopMarketOrder sym stop_side (pos_size position)
                new_stop_price true));
           known (update (set_stop_order (order_id stop_order))))
          (λ e, mret tt)
    end
  end.

(** [LiveTradingEngine.process_signal]; an entry order is placed without
    [reduce_only]. *)
Definition process_signal (signal : Signal) (current_price : Q) : N unit :=
  match action signal with
  | None => mret tt
  | Some act =>
    if String.eqb act "" then mret tt
    else
      '(should_stop, reason) ← check_safety_limits;
      if should_stop : bool then mret tt
      else
        update_positions;;
        if String.eqb act "CLOSE" then _close_all_positions
        else if String.eqb act "BUY" || String.eqb act "SELL" then
          known (_process_entry_signal get_account_balance
                   (λ sym side quantity,
                      place_market_order sym side quantity None)
                   place_stop_market_order calculate_margin
                   signal current_price)
        else if String.eqb act "UPDATE_STOP" then
          _update_stop_loss signal current_price
        else mret tt
  end.

End Control.

End LiveControl.

(** ** More sample data *)

Module MoreSamples.
Export Samples.
Import Validation.

(** Two analysed parameters: one stable, one whose analysis has no
    coefficient of variation. *)
Definition sample_sensitivity : SensitivityResults :=
  {| sensitivity_analysis :=
       <["fast_length" := <["coefficient_of_variation" := (1 # 10)%Q]> ∅]>
       (<["slow_length" := <["mean" := 2%Q]> ∅]> ∅) |}.

Import LiveTrading.

(** An exchange that fills every market order. *)
Definition accept_market_order
    : string → string → Q → nat → nat * result Order :=
  λ _ _ _ n, (S n, Ok {| order_id := "entry-1" |}).


(** An exchange that cannot be reached for the balance. *)
Definition unreachable : nat → nat * result Balance := λ n,
  (S n, Raise (Exception "timeout")).

Import LiveControl.

(** The limits of an engine started with its default arguments. *)
Definition default_limits : Limits :=
  {| max_daily_loss_pct := 5; max_drawdown_pct := 15;
     daily_start_balance := 10000; peak_equity := 10000 |}.

(** The same limits for an account that started the day at 1000. *)
Definition steady_limits : Limits :=
  {| max_daily_loss_pct := 5; max_drawdown_pct := 15;
     daily_start_balance := 1000; peak_equity := 1000 |}.

(** An engine created with [initial_capital=0]. *)
Definition zero_capital_limits : Limits :=
  {| max_daily_loss_pct := 5; max_drawdown_pct := 15;
     daily_start_balance := 0; peak_equity := 0 |}.

Definition long_position : AdapterPosition :=
  {| pos_symbol := "BTCUSDT"; pos_side := "LONG"; pos_size := 2;
     pos_unrealized_pnl := 10 |}.

Definition dust_position : AdapterPosition :=
  {| pos_symbol := "BTCUSDT"; pos_side := "LONG"; pos_size := 1 / 20000;
     pos_unrealized_pnl := 0 |}.

Definition holding_engine : Engine :=
  {| symbol := "BTCUSDT";
     active_positions := {["BTCUSDT" := long_position]};
     active_stop_orders := {["BTCUSDT" := "stop-1"]};
     trades_executed := 4; trades_skipped := 1 |}.

Definition live (eng : Engine) (l : Limits) : Live :=
  {| world := {| engine := eng; adapter := 0%nat |}; limits := l |}.

Definition reported_positions
    : string → nat → nat * result (list AdapterPosition) :=
  λ _ n, (S n, Ok [long_position; dust_position]).

Definition positions_unavailable
    : string → nat → nat * result (list AdapterPosition) :=
  λ _ n, (S n, Raise (Exception "timeout")).

Definition refuse_any_market_order
    : string → string → Q → option bool → nat → nat * result Order :=
  λ _ _ _ _ n, (S n, Raise (Exception "order rejected")).

Definition refuse_cancel : string → string → nat → nat * result unit :=
  λ _ _ n, (S n, Raise (Exception "unknown order")).

Definition trail_signal : Signal :=
  {| action := Some "UPDATE_STOP"; quantity := None;
     stop_price := Some 97%Q; target_price := None |}.

End MoreSamples.

(** * Properties *)

(** ** Python values *)

Lemma truthy_false_iff x : truthy x = false ↔ (x == 0)%Q.
Proof.
  unfold truthy. rewrite negb_false_iff. apply Qeq_bool_iff.
Qed.

Lemma truthy_true_iff x : truthy x = true ↔ ¬ (x == 0)%Q.
Proof.
  unfold truthy. rewrite negb_true_iff, <- not_true_iff_false.
  by rewrite Qeq_bool_iff.
Qed.

Lemma Qlt_bool_iff x y : Qlt_bool x y = true ↔ (x < y)%Q.
Proof.
  unfold Qlt_bool. rewrite negb_true_iff, <- not_true_iff_false, Qle_bool_iff.
  split; [apply Qnot_le_lt | apply Qlt_not_le].
Qed.

Lemma Qlt_bool_false_iff x y : Qlt_bool x y = false ↔ (y <= x)%Q.
Proof.
  unfold Qlt_bool. rewrite negb_false_iff. apply Qle_bool_iff.
Qed.

Lemma Qle_bool_false_iff x y : Qle_bool x y = false ↔ (y < x)%Q.
Proof.
  rewrite <- not_true_iff_false, Qle_bool_iff.
  split; [apply Qnot_le_lt | apply Qlt_not_le].
Qed.

Lemma py_div_ok a b : ¬ (b == 0)%Q → py_div a b = Ok (a / b)%Q.
Proof.
  intros Hb. unfold py_div.
  destruct (Qeq_bool b 0) eqn:E; [|done].
  by apply Qeq_bool_iff in E.
Qed.

Lemma py_div_zero a b : (b == 0)%Q → py_div a b = Raise ZeroDivisionError.
Proof.
  intros Hb. unfold py_div. apply Qeq_bool_iff in Hb. by rewrite Hb.
Qed.

(** ** Market economics *)

Module MarketEconomicsFacts.
Import MarketEconomics Specified Samples.
Local Open Scope Q_scope.

Lemma inv_leverage_pos l : 0 < l → 0 < 1 / l.
Proof.
  intros Hl. unfold Qdiv. rewrite Qmult_1_l. by apply Qinv_lt_0_compat.
Qed.

Lemma cost_factor_pos entry l rate :
  0 < entry → 0 < l → 0 <= rate → 0 < entry * (1 / l + rate).
Proof.
  intros He Hl Hr. apply Qmult_lt_0_compat; [done|].
  pose proof (inv_leverage_pos l Hl). lra.
Qed.

Lemma py_or_zero z d : z == 0 → py_or (Some z) d = d.
Proof.
  intros Hz. unfold py_or. apply truthy_false_iff in Hz. by rewrite Hz.
Qed.

Lemma py_or_nonzero v d : ¬ v == 0 → py_or (Some v) d = v.
Proof.
  intros Hv. unfold py_or. apply truthy_true_iff in Hv. by rewrite Hv.
Qed.

(** *** Profit and loss *)

(** C1.  The unrealized P&L is [(current - entry) * quantity] for the
    direction ['long'] and [(entry - current) * quantity] for any other
    direction; two market specifications that differ only in their leverage
    give the same P&L; and the realized P&L is the unrealized P&L at the exit
    price. *)
Theorem pnl_formula_and_leverage_invariance
    (self : MarketSpec) (entry_price current_price quantity : Q)
    (direction : string) :
  (direction = "long" →
     calculate_unrealized_pnl self entry_price current_price quantity direction
     = (current_price - entry_price) * quantity)
  ∧ (direction ≠ "long" →
     calculate_unrealized_pnl self entry_price current_price quantity direction
     = (entry_price - current_price) * quantity)
  ∧ (∀ l1 l2 : Q,
       calculate_unrealized_pnl (with_leverage self l1)
         entry_price current_price quantity direction
       = calculate_unrealized_pnl (with_leverage self l2)
           entry_price current_price quantity direction)
  ∧ calculate_unrealized_pnl (with_leverage self 1)
      entry_price current_price quantity direction
    = calculate_unrealized_pnl (with_leverage self 50)
        entry_price current_price quantity direction
  ∧ (∀ exit_price : Q,
       calculate_realized_pnl self entry_price exit_price quantity direction
       = calculate_unrealized_pnl self entry_price exit_price quantity
           direction).
Proof.
  unfold calculate_realized_pnl, calculate_unrealized_pnl.
  repeat split.
  - intros ->. done.
  - intros Hd. apply String.eqb_neq in Hd. by rewrite Hd.
Qed.

Lemma pnl_formula_and_leverage_invariance_witness :
  calculate_unrealized_pnl eurusd 100 110 2 "long" = (110 - 100) * 2
  ∧ calculate_unrealized_pnl eurusd 100 110 2 "short" = (100 - 110) * 2.
Proof.
  split.
  - apply (proj1 (pnl_formula_and_leverage_invariance eurusd 100 110 2 "long")).
    reflexivity.
  - apply (proj1 (proj2
      (pnl_formula_and_leverage_invariance eurusd 100 110 2 "short"))).
    discriminate.
Defined.

(** *** Margin call *)

(** C5.  [check_margin_call] never raises; it answers [False] when no margin
    is used, [True] when margin is used and the equity is not positive
    (whatever the level), and otherwise [True] exactly when
    [equity / margin_used] is below the margin-call level.  With equity 0 and
    margin 100 it answers [True] at every level; with equity 150, margin 100
    and level 1 it answers [False]. *)
Theorem check_margin_call_cases
    (self : Broker) (equity margin_used : Q) :
  (margin_used <= 0 → check_margin_call self equity margin_used = Ok false)
  ∧ (0 < margin_used → equity <= 0 →
       check_margin_call self equity margin_used = Ok true)
  ∧ (0 < margin_used → 0 < equity →
       ∃ b, check_margin_call self equity margin_used = Ok b
            ∧ (b = true ↔ equity / margin_used < margin_call_level self))
  ∧ (∀ level,
       check_margin_call
         {| market_spec := market_spec self; margin_call_level := level |}
         0 100 = Ok true)
  ∧ check_margin_call
      {| market_spec := market_spec self; margin_call_level := 1 |}
      150 100 = Ok false.
Proof.
  unfold check_margin_call.
  refine (conj _ (conj _ (conj _ (conj _ _)))); [| | |done|done].
  - intros Hm. apply Qle_bool_iff in Hm. by rewrite Hm.
  - intros Hm He.
    apply Qle_bool_false_iff in Hm. apply Qle_bool_iff in He.
    by rewrite Hm, He.
  - intros Hm He.
    rewrite (proj2 (Qle_bool_false_iff _ _) Hm).
    rewrite (proj2 (Qle_bool_false_iff _ _) He).
    rewrite (proj2 (Qlt_bool_iff _ _) Hm).
    rewrite py_div_ok by lra. simpl.
    eexists. split; [reflexivity|]. apply Qlt_bool_iff.
Qed.

Lemma check_margin_call_cases_witness :
  check_margin_call eurusd_broker 100 0 = Ok false
  ∧ check_margin_call eurusd_broker (-5) 100 = Ok true
  ∧ ∃ b, check_margin_call eurusd_broker 90 100 = Ok b
         ∧ (b = true ↔ 90 / 100 < margin_call_level eurusd_broker).
Proof.
  split; [|split].
  - apply (proj1 (check_margin_call_cases eurusd_broker 100 0)). lra.
  - apply (proj1 (proj2 (check_margin_call_cases eurusd_broker (-5) 100))); lra.
  - apply (proj1 (proj2 (proj2
      (check_margin_call_cases eurusd_broker 90 100)))); lra.
Defined.

(** *** Initial margin *)

(** C6, as stated, fails: for a futures contract with an initial margin of
    12000 per contract and no intraday margin, an intraday position of 2
    contracts at 5000 is charged the initial margin, [2 * 12000].  The claim
    asks for [2 * intraday_margin], which does not exist, or, if such a market
    counts as not having fixed margins configured, for the leverage formula
    [5000 * 2 / 20]. *)
Lemma calculate_margin_as_specified_fails :
  calculate_margin es_overnight_only 5000 2 true = Ok (Qabs 2 * 12000)
  ∧ ¬ calculate_margin_as_specified false es_overnight_only 5000 2 true
  ∧ ¬ calculate_margin_as_specified true es_overnight_only 5000 2 true.
Proof.
  split; [reflexivity|]. split.
  - intros (H & _ & _).
    assert (fixed_margins_configured false es_overnight_only) as Hfixed.
    { repeat split; [by eexists | discriminate]. }
    destruct (H Hfixed eq_refl) as (intraday & Hnone & _). discriminate.
  - intros (_ & _ & H).
    assert (¬ fixed_margins_configured true es_overnight_only) as Hnot.
    { intros (_ & _ & Hboth). by destruct (Hboth eq_refl). }
    specialize (H Hnot). vm_compute in H. discriminate.
Qed.

(** C6, amended.  For a futures market with an initial margin per contract,
    the margin is [|quantity| * intraday_margin_per_contract] when
    [is_intraday] holds and an intraday margin is configured, and
    [|quantity| * initial_margin_per_contract] when [is_intraday] does not
    hold or no intraday margin is configured.  In every other case (futures
    without an initial margin per contract, and every non-futures asset
    class) it is [(entry_price * |quantity|) / leverage], as Python divides. *)
Theorem calculate_margin_cases
    (self : MarketSpec) (entry_price quantity : Q) (is_intraday : bool) :
  (∀ initial intraday,
     is_futures self = true →
     initial_margin_per_contract self = Some initial →
     intraday_margin_per_contract self = Some intraday →
     is_intraday = true →
     calculate_margin self entry_price quantity is_intraday
     = Ok (Qabs quantity * intraday))
  ∧ (∀ initial,
     is_futures self = true →
     initial_margin_per_contract self = Some initial →
     is_intraday = false ∨ intraday_margin_per_contract self = None →
     calculate_margin self entry_price quantity is_intraday
     = Ok (Qabs quantity * initial))
  ∧ (is_futures self = false ∨ initial_margin_per_contract self = None →
     calculate_margin self entry_price quantity is_intraday
     = py_div (entry_price * Qabs quantity) (leverage self)).
Proof.
  unfold calculate_margin. repeat split.
  - intros initial intraday -> -> -> ->. done.
  - intros initial -> -> [-> | ->]; [done|]. by destruct is_intraday.
  - intros [-> | ->]; [done|]. by destruct (is_futures self).
Qed.

Lemma calculate_margin_cases_witness :
  calculate_margin es_day 5000 2 true = Ok (Qabs 2 * 500)
  ∧ calculate_margin es_day 5000 2 false = Ok (Qabs 2 * 12000)
  ∧ calculate_margin es_overnight_only 5000 2 true = Ok (Qabs 2 * 12000)
  ∧ calculate_margin eurusd 5000 2 true = py_div (5000 * Qabs 2) 50
  ∧ calculate_margin btc_perp 5000 2 true = py_div (5000 * Qabs 2) 10.
Proof.
  refine (conj _ (conj _ (conj _ (conj _ _)))).
  - by apply (proj1 (calculate_margin_cases es_day 5000 2 true) 12000 500).
  - apply (proj1 (proj2 (calculate_margin_cases es_day 5000 2 false)) 12000);
      [done | done | by left].
  - apply (proj1 (proj2
      (calculate_margin_cases es_overnight_only 5000 2 true)) 12000);
      [done | done | by right].
  - apply (proj2 (proj2 (calculate_margin_cases eurusd 5000 2 true))).
    by left.
  - apply (proj2 (proj2 (calculate_margin_cases btc_perp 5000 2 true))).
    by right.
Defined.

(** *** Maintenance margin *)

(** C7, as stated, fails: a forex market with a maintenance-margin rate of
    0.5% and leverage 50 holds [1 * 1000 / 50] for 1000 units entered at 1,
    not [1 * 1000 * 0.005]: the rate is read for futures only. *)
Lemma calculate_maintenance_margin_as_specified_fails :
  calculate_maintenance_margin eurusd 1 1000 None = Ok (1 * Qabs 1000 / 50)
  ∧ ¬ calculate_maintenance_margin_as_specified eurusd 1 1000 None.
Proof.
  split; [reflexivity|].
  intros (H & _). specialize (H _ eq_refl). vm_compute in H. discriminate.
Qed.

(** C7, amended.  For a futures market with a maintenance-margin rate the
    maintenance margin is [notional * rate] with
    [notional = (current_price or entry_price) * |quantity|].  In every other
    case (no rate configured, or a non-futures asset class) it is the
    initial-margin formula: [|quantity| * initial_margin_per_contract] for
    futures with an initial margin per contract, else
    [(entry_price * |quantity|) / leverage]. *)
Theorem calculate_maintenance_margin_cases
    (self : MarketSpec) (entry_price quantity : Q) (current_price : option Q) :
  (∀ rate,
     is_futures self = true →
     maintenance_margin_rate self = Some rate →
     calculate_maintenance_margin self entry_price quantity current_price
     = Ok (py_or current_price entry_price * Qabs quantity * rate))
  ∧ (is_futures self = false ∨ maintenance_margin_rate self = None →
     calculate_maintenance_margin self entry_price quantity current_price
     = calculate_margin self entry_price quantity false)
  ∧ (is_futures self = false ∨ maintenance_margin_rate self = None →
     calculate_maintenance_margin self entry_price quantity current_price
     = match is_futures self, initial_margin_per_contract self with
       | true, Some initial => Ok (Qabs quantity * initial)
       | _, _ => py_div (entry_price * Qabs quantity) (leverage self)
       end).
Proof.
  unfold calculate_maintenance_margin, calculate_margin.
  refine (conj _ (conj _ _)).
  - intros rate -> ->. done.
  - intros [-> | ->]; [done|].
    destruct (is_futures self); [|done].
    by destruct (initial_margin_per_contract self).
  - intros [-> | ->]; [done|].
    destruct (is_futures self); [|done].
    by destruct (initial_margin_per_contract self).
Qed.

Lemma calculate_maintenance_margin_cases_witness :
  calculate_maintenance_margin btc_perp 30000 2 (Some 31000)
  = Ok (py_or (Some 31000) 30000 * Qabs 2 * (5 # 1000))
  ∧ calculate_maintenance_margin eurusd 1 1000 None
    = calculate_margin eurusd 1 1000 false
  ∧ calculate_maintenance_margin es_day 5000 2 None
    = Ok (Qabs 2 * 12000).
Proof.
  refine (conj _ (conj _ _)).
  - by apply (proj1
      (calculate_maintenance_margin_cases btc_perp 30000 2 (Some 31000))).
  - apply (proj1 (proj2
      (calculate_maintenance_margin_cases eurusd 1 1000 None))).
    by left.
  - apply (proj2 (proj2
      (calculate_maintenance_margin_cases es_day 5000 2 None))).
    by right.
Defined.

(** *** Affordable quantity *)

Lemma max_affordable_qty_at_rate (self : Broker)
    (entry_price available_cash rate : Q) :
  ¬ rate == 0 →
  max_affordable_qty self entry_price available_cash (Some rate)
  = affordable_qty_at self entry_price available_cash rate.
Proof.
  intros Hrate. unfold max_affordable_qty, affordable_qty_at.
  by rewrite py_or_nonzero.
Qed.

Lemma py_min_bound desired bound :
  bound <= desired → py_min desired bound == bound.
Proof.
  intros Hle. unfold py_min.
  destruct (Qlt_bool bound desired) eqn:E; [reflexivity|].
  apply Qlt_bool_false_iff in E. lra.
Qed.

(** C8.  The bound of [adjust_quantity_for_cash] is the specified one for
    every commission rate passed but [0.0]: for a positive price and
    leverage and a positive rate it is
    [available_cash / (entry_price * (1 / leverage + commission_rate))],
    it spends the cash exactly, and a desired quantity of at least the bound
    is cut down to it.  At an explicit rate of [0.0] the method computes with
    the market's rate instead: for EURUSD at 50:1 with a commission of
    0.04%, price 2 and cash 500 the bound is [625000 / 51], not the
    specified [500 / (2 * (1 / 50 + 0)) = 12500], and it does not spend the
    cash at rate zero. *)
Theorem max_affordable_quantity_at_explicit_zero :
  (∀ (self : Broker)
     (entry_price desired_quantity available_cash commission_rate : Q),
     ¬ commission_rate == 0 →
     max_affordable_quantity_as_specified self entry_price desired_quantity
       available_cash commission_rate)
  ∧ (∃ bound,
       max_affordable_qty eurusd_broker 2 500 (Some 0) = Ok bound
       ∧ adjust_quantity_for_cash eurusd_broker 2 100000 500 (Some 0)
         = Ok bound
       ∧ bound == 625000 # 51
       ∧ 500 / (2 * (1 / 50 + 0)) == 12500
       ∧ ¬ bound == 500 / (2 * (1 / 50 + 0))
       ∧ ¬ bound * 2 / 50 + 2 * bound * 0 == 500)
  ∧ ¬ max_affordable_quantity_as_specified eurusd_broker 2 100000 500 0.
Proof.
  refine (conj _ (conj _ _)).
  - intros self entry_price desired_quantity available_cash rate Hrate.
    unfold max_affordable_quantity_as_specified.
    set (lev := leverage (market_spec self)). intros He Hl Hr.
    pose proof (cost_factor_pos entry_price lev rate He Hl Hr) as Hcost.
    assert (affordable_qty_at self entry_price available_cash rate
            = Ok (available_cash / (entry_price * (1 / lev + rate))))
      as Hbound.
    { unfold affordable_qty_at. fold lev. rewrite py_div_ok by lra. simpl.
      by rewrite py_div_ok by lra. }
    rewrite max_affordable_qty_at_rate by done.
    eexists. split; [exact Hbound|]. split; [reflexivity|]. split.
    + field. refine (conj _ (conj _ _)); [lra| |lra].
      pose proof (Qmult_le_0_compat rate lev Hr (Qlt_le_weak _ _ Hl)). lra.
    + intros Hle. unfold adjust_quantity_for_cash.
      rewrite max_affordable_qty_at_rate, Hbound by done. simpl.
      by apply py_min_bound.
  - eexists. split; [reflexivity|]. split; [reflexivity|].
    by vm_compute.
  - unfold max_affordable_quantity_as_specified. intros Hclaim.
    destruct Hclaim as (bound & Hbound & Hvalue & _); [done..|].
    injection Hbound as <-. by vm_compute in Hvalue.
Qed.

Lemma max_affordable_quantity_at_explicit_zero_witness :
  ∃ bound,
    max_affordable_qty eurusd_broker 2 1000 (Some (1 # 100)) = Ok bound
    ∧ bound == 1000 / (2 * (1 / 50 + (1 # 100)))
    ∧ bound * 2 / 50 + 2 * bound * (1 # 100) == 1000
    ∧ (bound <= 100000 →
       same_quantity
         (adjust_quantity_for_cash eurusd_broker 2 100000 1000
            (Some (1 # 100)))
         (Ok bound)).
Proof.
  apply (proj1 max_affordable_quantity_at_explicit_zero eurusd_broker 2
           100000 1000 (1 # 100)); by vm_compute.
Defined.

(** *** The commission-rate fallback *)

Lemma Qle_bool_proper (a b c : Q) : a == b → Qle_bool a c = Qle_bool b c.
Proof.
  intros Heq. apply eq_true_iff_eq. rewrite !Qle_bool_iff. by rewrite Heq.
Qed.

(** When the results of [adjust_quantity_for_cash] at two bounds are the
    same. *)
Lemma py_min_same (desired bound1 bound2 : Q) :
  py_min desired bound1 == py_min desired bound2
  ↔ (bound1 < desired ∧ bound2 == bound1)
    ∨ (desired <= bound1 ∧ desired <= bound2).
Proof.
  unfold py_min.
  destruct (Qlt_bool bound1 desired) eqn:H1, (Qlt_bool bound2 desired) eqn:H2;
    rewrite ?Qlt_bool_iff, ?Qlt_bool_false_iff in *;
    split; try (intros [[? ?]|[? ?]]); try intros ?; try lra;
    try (left; split; lra); try (right; split; lra).
Qed.

(** C10, as stated, fails: for EURUSD with its commission of 0.04%, a
    desired quantity of 1 at price 2 with 500 in cash is affordable at
    either rate, and [adjust_quantity_for_cash] returns it with the explicit
    rate [0.0] as it would without any commission. *)
Lemma explicit_zero_as_specified_fails :
  adjust_quantity_for_cash eurusd_broker 2 1 500 (Some 0) = Ok 1
  ∧ adjusted_quantity_at eurusd_broker 2 1 500 0 = Ok 1
  ∧ ¬ explicit_zero_as_specified eurusd_broker 2 1000 1 500.
Proof.
  refine (conj _ (conj _ _)); [reflexivity..|].
  unfold explicit_zero_as_specified. intros Hclaim.
  destruct Hclaim as [_ [_ Hdiffers]]; [done|].
  apply Hdiffers. reflexivity.
Qed.

(** C10.  An explicit commission rate of zero is replaced by the market's
    rate: [can_afford_position] and [adjust_quantity_for_cash] return what
    they return with the rate omitted, which is the result at the market's
    rate.  It need not differ from the zero-commission result: the adjusted
    quantity is the same exactly when the desired quantity exceeds neither
    the bound at the market's rate nor the bound at rate zero, or the two
    bounds are equal and below it; and the answer of [can_afford_position]
    is the same when [entry_price * quantity * market_rate] is zero. *)
Theorem explicit_zero_commission_uses_market_rate
    (self : Broker) (entry_price quantity desired_quantity available_cash : Q)
    (zero : Q) :
  let market_rate := commission_rate (market_spec self) in
  zero == 0 →
  can_afford_position self entry_price quantity available_cash (Some zero)
  = can_afford_position self entry_price quantity available_cash None
  ∧ adjust_quantity_for_cash self entry_price desired_quantity available_cash
      (Some zero)
    = adjust_quantity_for_cash self entry_price desired_quantity
        available_cash None
  ∧ can_afford_position self entry_price quantity available_cash (Some zero)
    = can_afford_at self entry_price quantity available_cash market_rate
  ∧ adjust_quantity_for_cash self entry_price desired_quantity available_cash
      (Some zero)
    = adjusted_quantity_at self entry_price desired_quantity available_cash
        market_rate
  ∧ (∀ at_market at_zero,
       affordable_qty_at self entry_price available_cash market_rate
       = Ok at_market →
       affordable_qty_at self entry_price available_cash 0 = Ok at_zero →
       same_quantity
         (adjust_quantity_for_cash self entry_price desired_quantity
            available_cash (Some zero))
         (adjusted_quantity_at self entry_price desired_quantity
            available_cash 0)
       ↔ (at_market < desired_quantity ∧ at_zero == at_market)
         ∨ (desired_quantity <= at_market ∧ desired_quantity <= at_zero))
  ∧ (entry_price * quantity * market_rate == 0 →
     same_answer
       (can_afford_position self entry_price quantity available_cash
          (Some zero))
       (can_afford_at self entry_price quantity available_cash 0)).
Proof.
  intros market_rate Hz.
  pose proof (py_or_zero zero market_rate Hz) as Hor.
  assert (adjust_quantity_for_cash self entry_price desired_quantity
            available_cash (Some zero)
          = adjusted_quantity_at self entry_price desired_quantity
              available_cash market_rate) as Hadjusted.
  { unfold adjust_quantity_for_cash, max_affordable_qty,
      adjusted_quantity_at, affordable_qty_at.
    fold market_rate. by rewrite Hor. }
  assert (can_afford_position self entry_price quantity available_cash
            (Some zero)
          = can_afford_at self entry_price quantity available_cash
              market_rate) as Hafford.
  { unfold can_afford_position, can_afford_at. fold market_rate.
    by rewrite Hor. }
  refine (conj _ (conj _ (conj Hafford (conj Hadjusted (conj _ _))))).
  - unfold can_afford_position. fold market_rate. by rewrite Hor.
  - unfold adjust_quantity_for_cash, max_affordable_qty.
    fold market_rate. by rewrite Hor.
  - intros at_market at_zero Hmarket Hzero. rewrite Hadjusted.
    unfold adjusted_quantity_at. rewrite Hmarket, Hzero. simpl.
    apply py_min_same.
  - intros Hfree. rewrite Hafford. unfold can_afford_at.
    destruct (calculate_margin_required self entry_price quantity)
      as [margin|e]; simpl; [|done].
    assert (margin + entry_price * quantity * market_rate
            == margin + entry_price * quantity * 0) as Hsame
      by (rewrite Hfree; ring).
    split; [by apply Qle_bool_proper | exact Hsame].
Qed.

Lemma explicit_zero_commission_uses_market_rate_witness :
  can_afford_position eurusd_broker 2 1000 500 (Some 0)
  = can_afford_position eurusd_broker 2 1000 500 None
  ∧ adjust_quantity_for_cash eurusd_broker 2 100000 500 (Some 0)
    = adjust_quantity_for_cash eurusd_broker 2 100000 500 None
  ∧ can_afford_position eurusd_broker 2 1000 500 (Some 0)
    = can_afford_at eurusd_broker 2 1000 500 (4 # 10000)
  ∧ adjust_quantity_for_cash eurusd_broker 2 100000 500 (Some 0)
    = adjusted_quantity_at eurusd_broker 2 100000 500 (4 # 10000).
Proof.
  destruct (explicit_zero_commission_uses_market_rate
              eurusd_broker 2 1000 100000 500 0)
    as (H1 & H2 & H3 & H4 & _); [reflexivity|].
  exact (conj H1 (conj H2 (conj H3 H4))).
Defined.

End MarketEconomicsFacts.

(** ** Training validation *)

Module ValidationFacts.
Import Validation Specified Samples.

(** *** The per-test majority rule *)

Lemma half_le (n k : nat) :
  Qle_bool (inject_Z (Z.of_nat n) / 2) (inject_Z (Z.of_nat k)) = true
  ↔ n ≤ 2 * k.
Proof.
  rewrite Qle_bool_iff. split; intros H.
  - assert (inject_Z (Z.of_nat n) <= inject_Z (2 * Z.of_nat k))%Q as H'.
    { rewrite inject_Z_mult. change (inject_Z 2) with 2%Q.
      assert (inject_Z (Z.of_nat n)
              == inject_Z (Z.of_nat n) / 2 * 2)%Q as -> by field.
      lra. }
    rewrite <- Zle_Qle in H'. lia.
  - assert (Z.of_nat n ≤ 2 * Z.of_nat k)%Z as H' by lia.
    rewrite Zle_Qle, inject_Z_mult in H'.
    change (inject_Z 2) with 2%Q in H'.
    apply Qle_shift_div_r; [reflexivity | lra].
Qed.

Lemma majority_rule_iff (max_p : Q) (pv : gmap string Q) :
  majority_rule max_p pv = true
  ↔ size pv ≠ 0 ∧ size pv ≤ 2 * passing_metrics max_p pv.
Proof.
  unfold majority_rule, dict_truthy.
  destruct (Nat.eqb_spec (size pv) 0) as [E | E]; simpl.
  - split; [discriminate | by intros [? _]].
  - rewrite half_le. by split; [intros ?; split | intros [_ ?]].
Qed.

(** C2, as stated, fails: with two metrics of which exactly one has a
    p-value of at most 0.05, the randomized-entry test passes, and so does a
    suitable permutation test. *)
Lemma test_passes_as_specified_fails :
  let mc := suite one_of_two one_of_two one_of_two in
  let names := suitable_tests (suitability true true true) in
  size (default ∅ (p_values one_of_two)) = 2
  ∧ passing_metrics (5 # 100) (default ∅ (p_values one_of_two)) = 1
  ∧ randomized_pass sample_criteria mc = true
  ∧ perm_pass sample_criteria mc names = true
  ∧ ¬ test_passes_as_specified (monte_carlo_p_value_max sample_criteria)
        (randomized_entry mc) (randomized_pass sample_criteria mc)
  ∧ ¬ test_passes_as_specified (monte_carlo_p_value_max sample_criteria)
        (permutation mc) (perm_pass sample_criteria mc names).
Proof.
  refine (conj _ (conj _ (conj _ (conj _ (conj _ _))))); try by vm_compute.
  - intros H. destruct (H eq_refl eq_refl) as [Hpass _].
    specialize (Hpass eq_refl). vm_compute in Hpass. lia.
  - intros H. destruct (H eq_refl eq_refl) as [Hpass _].
    specialize (Hpass eq_refl). vm_compute in Hpass. lia.
Qed.

Lemma majority_rule_nonempty (max_p : Q) (res : TestResult) :
  dict_truthy (default ∅ (p_values res)) = true →
  majority_rule max_p (default ∅ (p_values res)) = true
  ↔ half_or_more max_p res.
Proof.
  intros Hne. rewrite majority_rule_iff. unfold half_or_more.
  unfold dict_truthy in Hne. apply negb_true_iff, Nat.eqb_neq in Hne.
  by split; [intros [_ ?] | intros ?; split].
Qed.

(** C2, amended.  A test that is evaluated (permutation and bootstrap: when
    listed as suitable and not skipped; randomized entry: always) and has
    p-values passes exactly when at least half of them are at most the
    maximal p-value, [2 * passing >= count]; so an exact half passes. *)
Theorem test_passes_on_half_or_more
    (criteria : TrainingValidationCriteria) (mc : MonteCarloSuiteResult)
    (names : list string) :
  let max_p := monte_carlo_p_value_max criteria in
  (is_in "permutation" names = true →
   default false (skipped (permutation mc)) = false →
   dict_truthy (default ∅ (p_values (permutation mc))) = true →
   (perm_pass criteria mc names = true
    ↔ half_or_more max_p (permutation mc)))
  ∧ (is_in "bootstrap" names = true →
     default false (skipped (bootstrap mc)) = false →
     dict_truthy (default ∅ (p_values (bootstrap mc))) = true →
     (bootstrap_pass criteria mc names = true
      ↔ half_or_more max_p (bootstrap mc)))
  ∧ (dict_truthy (default ∅ (p_values (randomized_entry mc))) = true →
     (randomized_pass criteria mc = true
      ↔ half_or_more max_p (randomized_entry mc))).
Proof.
  intros max_p. refine (conj _ (conj _ _)).
  - intros Hin Hrun Hne. unfold perm_pass. rewrite Hin, Hrun. simpl.
    by apply majority_rule_nonempty.
  - intros Hin Hrun Hne. unfold bootstrap_pass. rewrite Hin, Hrun. simpl.
    by apply majority_rule_nonempty.
  - intros Hne. unfold randomized_pass. by apply majority_rule_nonempty.
Qed.

Lemma test_passes_on_half_or_more_witness :
  let mc := suite two_of_three one_of_two none_of_three in
  let names := suitable_tests (suitability true true true) in
  (perm_pass sample_criteria mc names = true
   ↔ half_or_more (5 # 100) two_of_three)
  ∧ (bootstrap_pass sample_criteria mc names = true
     ↔ half_or_more (5 # 100) one_of_two)
  ∧ (randomized_pass sample_criteria mc = true
     ↔ half_or_more (5 # 100) none_of_three).
Proof.
  intros mc names.
  pose proof (test_passes_on_half_or_more sample_criteria mc names)
    as (Hperm & Hboot & Hrand).
  refine (conj _ (conj _ _)).
  - apply Hperm; reflexivity.
  - apply Hboot; reflexivity.
  - apply Hrand; reflexivity.
Defined.

(** *** The rule over the suitable tests *)

Lemma NoDup_fst_filter {A} (f : string * A → bool) (l : list (string * A)) :
  NoDup l.*1 → NoDup (List.filter f l).*1.
Proof.
  induction l as [|x l IH]; simpl; [done|].
  rewrite NoDup_cons. intros [Hx Hl].
  destruct (f x); simpl; [|by apply IH].
  apply NoDup_cons. split; [|by apply IH].
  intros Hin. apply Hx.
  apply list_elem_of_fmap in Hin as (y & -> & Hy).
  apply list_elem_of_fmap. exists y. split; [done|].
  apply list_elem_of_In, filter_In in Hy as [Hy _].
  by apply list_elem_of_In.
Qed.

Lemma NoDup_suitable_tests (ts : gmap string TestSuitability) :
  NoDup (suitable_tests ts).
Proof. apply NoDup_fst_filter, NoDup_fst_map_to_list. Qed.

Lemma names_among_three (names : list string) :
  NoDup names → Forall (λ name, name ∈ test_names) names →
  names ≡ₚ filter (λ name, name ∈ names) test_names.
Proof.
  intros Hnd Hsub. apply NoDup_Permutation; [done| |].
  - apply NoDup_filter. by apply (bool_decide_unpack _).
  - intros x. rewrite list_elem_of_filter. rewrite Forall_forall in Hsub.
    split; [intros Hx; split; [done | by apply Hsub] | by intros [Hx _]].
Qed.

(** [name in suitable_tests] says that the table marks [name] suitable. *)
Lemma is_in_suitable_tests (table : gmap string TestSuitability)
    (name : string) :
  is_in name (suitable_tests table) = marked_suitable table name.
Proof.
  unfold is_in, suitable_tests, marked_suitable.
  destruct (table !! name) as [suit|] eqn:Hname.
  - destruct (suitable suit) eqn:Hsuit.
    + apply bool_decide_eq_true_2, list_elem_of_fmap.
      exists (name, suit). split; [done|].
      apply list_elem_of_In, filter_In. split; [|done].
      by apply list_elem_of_In, elem_of_map_to_list.
    + apply bool_decide_eq_false_2.
      intros ([name' suit'] & -> & Hin)%list_elem_of_fmap.
      apply list_elem_of_In, filter_In in Hin as [Hin Hsuit'].
      apply list_elem_of_In, elem_of_map_to_list in Hin. simpl in *.
      congruence.
  - apply bool_decide_eq_false_2.
    intros ([name' suit'] & -> & Hin)%list_elem_of_fmap.
    apply list_elem_of_In, filter_In in Hin as [Hin _].
    apply list_elem_of_In, elem_of_map_to_list in Hin. simpl in *.
    congruence.
Qed.

(** The length of the code's list of suitable tests is the number of tests
    the table marks suitable, when it marks no other name. *)
Lemma suitable_tests_length (table : gmap string TestSuitability) :
  (∀ name, marked_suitable table name = true → name ∈ test_names) →
  length (suitable_tests table) = number_suitable table.
Proof.
  intros Honly.
  assert (Forall (λ name, name ∈ test_names) (suitable_tests table)) as Hsub.
  { apply Forall_forall. intros name Hin. apply Honly.
    rewrite <- is_in_suitable_tests. by apply bool_decide_eq_true_2. }
  rewrite (Permutation_length
             (names_among_three _ (NoDup_suitable_tests table) Hsub)).
  unfold number_suitable, test_names. cbn [List.filter].
  rewrite <- !(is_in_suitable_tests table). unfold is_in.
  rewrite !filter_cons, !filter_nil.
  destruct (decide ("permutation" ∈ suitable_tests table)) as [Hp|Hp],
    (decide ("bootstrap" ∈ suitable_tests table)) as [Hb|Hb],
    (decide ("randomized_entry" ∈ suitable_tests table)) as [Hr|Hr];
    rewrite ?(bool_decide_eq_true_2 _ Hp), ?(bool_decide_eq_false_2 _ Hp),
      ?(bool_decide_eq_true_2 _ Hb), ?(bool_decide_eq_false_2 _ Hb),
      ?(bool_decide_eq_true_2 _ Hr), ?(bool_decide_eq_false_2 _ Hr);
    done.
Qed.

Lemma majority_rule_bool (max_p : Q) (pv : gmap string Q) :
  majority_rule max_p pv
  = negb (Nat.eqb (size pv) 0)
    && Nat.leb (size pv) (2 * passing_metrics max_p pv).
Proof.
  apply eq_true_iff_eq.
  rewrite majority_rule_iff, andb_true_iff, negb_true_iff, Nat.eqb_neq.
  by rewrite Nat.leb_le.
Qed.

(** C3.  With [n] the number of tests the suitability table marks suitable
    and [k] the number of those that passed, the check
    ['mc_individual_tests'] is set, and it is true for [n = 3] exactly when
    [k >= 2], for [n = 2] exactly when [k >= 1], for [n = 1] exactly when
    that one test passed, and false for [n = 0]; there is no other case.  The
    table marks no name suitable but those of the three Monte Carlo tests. *)
Theorem individual_tests_rule
    (criteria : TrainingValidationCriteria) (mc : MonteCarloSuiteResult)
    (test_suitability : gmap string TestSuitability) :
  let n := number_suitable test_suitability in
  let k := suitable_passed criteria mc test_suitability in
  (∀ name, marked_suitable test_suitability name = true →
           name ∈ test_names) →
  ∃ check : bool,
    _check_monte_carlo_suite_conditional criteria mc test_suitability
      !! "mc_individual_tests" = Some check
    ∧ (n = 3 → (check = true ↔ 2 ≤ k))
    ∧ (n = 2 → (check = true ↔ 1 ≤ k))
    ∧ (n = 1 → (check = true ↔ k = 1))
    ∧ (n = 0 → check = false)
    ∧ n ≤ 3.
Proof.
  intros n k Honly.
  unfold _check_monte_carlo_suite_conditional. rewrite lookup_insert_eq.
  eexists. split; [reflexivity|].
  unfold mc_individual_tests, perm_pass, bootstrap_pass, randomized_pass.
  cbn zeta. rewrite (suitable_tests_length _ Honly).
  rewrite !is_in_suitable_tests, !majority_rule_bool.
  subst n k.
  unfold number_suitable, suitable_passed, test_names, test_passed, result_of.
  cbn [List.filter String.eqb Ascii.eqb Bool.eqb orb].
  set (max_p := monte_carlo_p_value_max criteria).
  generalize (negb (Nat.eqb (size (default ∅ (p_values (permutation mc)))) 0)
              && Nat.leb (size (default ∅ (p_values (permutation mc))))
                   (2 * passing_metrics max_p
                          (default ∅ (p_values (permutation mc))))).
  generalize (negb (Nat.eqb (size (default ∅ (p_values (bootstrap mc)))) 0)
              && Nat.leb (size (default ∅ (p_values (bootstrap mc))))
                   (2 * passing_metrics max_p
                          (default ∅ (p_values (bootstrap mc))))).
  generalize (negb (Nat.eqb
                      (size (default ∅ (p_values (randomized_entry mc)))) 0)
              && Nat.leb (size (default ∅ (p_values (randomized_entry mc))))
                   (2 * passing_metrics max_p
                          (default ∅ (p_values (randomized_entry mc))))).
  intros rand boot perm.
  destruct (marked_suitable test_suitability "permutation"),
    (marked_suitable test_suitability "bootstrap"),
    (marked_suitable test_suitability "randomized_entry"),
    (default false (skipped (permutation mc))),
    (default false (skipped (bootstrap mc))), perm, boot, rand; simpl;
    (repeat split; try done; try lia).
Qed.

(** The sample tables mark the three tests only. *)
Lemma suitability_names (perm boot rand : bool) (name : string) :
  marked_suitable (suitability perm boot rand) name = true →
  name ∈ test_names.
Proof.
  unfold marked_suitable, suitability, test_names.
  destruct (decide (name = "permutation")) as [->|Hp];
    [intros _; by apply (bool_decide_unpack _)|].
  destruct (decide (name = "bootstrap")) as [->|Hb];
    [intros _; by apply (bool_decide_unpack _)|].
  destruct (decide (name = "randomized_entry")) as [->|Hr];
    [intros _; by apply (bool_decide_unpack _)|].
  by rewrite !lookup_insert_ne, lookup_empty by done.
Qed.

Lemma individual_tests_rule_witness :
  let mc := suite none_of_three two_of_three none_of_three in
  let check_of table :=
    _check_monte_carlo_suite_conditional sample_criteria mc table
      !! "mc_individual_tests" in
  (∃ check : bool,
     check_of (suitability true true true) = Some check
     ∧ (check = true
        ↔ 2 ≤ suitable_passed sample_criteria mc
                (suitability true true true)))
  ∧ (∃ check : bool,
       check_of (suitability true true false) = Some check
       ∧ (check = true
          ↔ 1 ≤ suitable_passed sample_criteria mc
                  (suitability true true false)))
  ∧ (∃ check : bool,
       check_of (suitability false true false) = Some check
       ∧ (check = true
          ↔ suitable_passed sample_criteria mc
              (suitability false true false) = 1))
  ∧ (∃ check : bool,
       check_of (suitability false false false) = Some check
       ∧ check = false).
Proof.
  intros mc check_of. refine (conj _ (conj _ (conj _ _))).
  - destruct (individual_tests_rule sample_criteria mc
                (suitability true true true) (suitability_names _ _ _))
      as (check & Hcheck & Hthree & _).
    exists check. split; [exact Hcheck|]. apply Hthree. reflexivity.
  - destruct (individual_tests_rule sample_criteria mc
                (suitability true true false) (suitability_names _ _ _))
      as (check & Hcheck & _ & Htwo & _).
    exists check. split; [exact Hcheck|]. apply Htwo. reflexivity.
  - destruct (individual_tests_rule sample_criteria mc
                (suitability false true false) (suitability_names _ _ _))
      as (check & Hcheck & _ & _ & Hone & _).
    exists check. split; [exact Hcheck|]. apply Hone. reflexivity.
  - destruct (individual_tests_rule sample_criteria mc
                (suitability false false false) (suitability_names _ _ _))
      as (check & Hcheck & _ & _ & _ & Hnone & _).
    exists check. split; [exact Hcheck|]. apply Hnone. reflexivity.
Defined.

(** The documented outcomes of the rule at sample suites: two of three
    suitable tests passing passes, one of two passes, none of one fails, and
    so does a table without a suitable test. *)
Example individual_tests_examples :
  mc_individual_tests sample_criteria
    (suite two_of_three none_of_three two_of_three)
    (suitability true true true) = true
  ∧ mc_individual_tests sample_criteria
      (suite two_of_three none_of_three none_of_three)
      (suitability true true true) = false
  ∧ mc_individual_tests sample_criteria
      (suite was_skipped two_of_three none_of_three)
      (suitability false true true) = true
  ∧ mc_individual_tests sample_criteria
      (suite was_skipped was_skipped none_of_three)
      (suitability false false true) = false
  ∧ mc_individual_tests sample_criteria
      (suite two_of_three two_of_three two_of_three)
      (suitability false false false) = false.
Proof. by vm_compute. Qed.

(** *** The overall verdict *)

Lemma quality_all (b1 b2 b3 : bool) :
  py_all (values (<["min_trades" := b3]> (<["min_sharpe" := b2]>
    (<["min_profit_factor" := b1]> (∅ : gmap string bool)))))
  = b1 && b2 && b3.
Proof. vm_compute. by destruct b1, b2, b3. Qed.

Lemma check_sensitivity_keys (criteria : TrainingValidationCriteria)
    (res : option SensitivityResults) (key : string) :
  is_Some (_check_sensitivity criteria res !! key) → sensitivity_named key.
Proof.
  unfold _check_sensitivity. destruct res as [res|].
  2: { rewrite lookup_empty. by intros [? ?]. }
  rewrite lookup_insert. case_decide as Hkey.
  { intros _. subst key. by exists "cv". }
  generalize (map_to_list (sensitivity_analysis res)).
  assert (∀ k, is_Some ((∅ : gmap string bool) !! k) → sensitivity_named k)
    as Hacc.
  { intros k. rewrite lookup_empty. by intros [? ?]. }
  revert Hacc. generalize (∅ : gmap string bool).
  intros acc Hacc items. revert acc Hacc.
  induction items as [|item items IH]; intros acc Hacc; simpl.
  - apply Hacc.
  - apply IH. intros k. rewrite lookup_insert. case_decide as Hk.
    + intros _. subst k. unfold sensitivity_key. by eexists.
    + apply Hacc.
Qed.

Lemma check_sensitivity_not_mc (criteria : TrainingValidationCriteria)
    (res : option SensitivityResults) (key : string) :
  key = "mc_score" ∨ key = "mc_percentile" ∨ key = "mc_individual_tests" →
  _check_sensitivity criteria res !! key = None.
Proof.
  intros Hkey. apply eq_None_not_Some. intros Hsome.
  apply check_sensitivity_keys in Hsome as [rest Hrest].
  destruct Hkey as [-> | [-> | ->]]; discriminate.
Qed.

Lemma all_checks_mc (quality mc_checks sensitivity : gmap string bool)
    (key : string) :
  sensitivity !! key = None → is_Some (mc_checks !! key) →
  dict_merge (dict_merge quality mc_checks) sensitivity !! key
  = mc_checks !! key.
Proof.
  intros Hsens [b Hb]. unfold dict_merge.
  rewrite lookup_union_r by done. by rewrite (lookup_union_Some_l _ _ _ _ Hb).
Qed.

(** C4.  The verdict [passed] is the conjunction of the three quality checks
    (profit factor, Sharpe ratio and trade count against their minima), the
    combined-score check, the combined-percentile check and the
    individual-tests check; whether and how the sensitivity analysis ran does
    not change it. *)
Theorem passed_is_conjunction
    (criteria : TrainingValidationCriteria)
    (backtest : BacktestResult) (enhanced_metrics : gmap string Q)
    (test_suitability : gmap string TestSuitability)
    (mc_results : MonteCarloSuiteResult)
    (run_sensitivity : bool)
    (sensitivity_params : option (gmap string (list Q)))
    (sensitivity_run : SensitivityResults) :
  let quality :=
    _check_backtest_quality criteria backtest enhanced_metrics in
  let mc_checks :=
    _check_monte_carlo_suite_conditional criteria mc_results
      test_suitability in
  let check (checks : gmap string bool) (key : string) :=
    default false (checks !! key) in
  let verdict :=
    validate criteria backtest enhanced_metrics test_suitability
      mc_results in
  passed (verdict run_sensitivity sensitivity_params sensitivity_run)
  = (check quality "min_profit_factor" && check quality "min_sharpe"
     && check quality "min_trades")
    && check mc_checks "mc_score" && check mc_checks "mc_percentile"
    && check mc_checks "mc_individual_tests"
  ∧ passed (verdict run_sensitivity sensitivity_params sensitivity_run)
    = Qle_bool (training_min_profit_factor criteria)
        (default 0%Q (enhanced_metrics !! "profit_factor"))
      && Qle_bool (training_min_sharpe criteria)
           (default 0%Q (enhanced_metrics !! "sharpe_ratio"))
      && Z.leb (training_min_trades criteria) (total_trades backtest)
      && Qle_bool (min_mc_score criteria)
           (default 0%Q (score (combined mc_results)))
      && Qle_bool (min_mc_percentile criteria)
           (default 0%Q (percentile (combined mc_results)))
      && mc_individual_tests criteria mc_results test_suitability
  ∧ (∀ run_sensitivity' sensitivity_params' sensitivity_run',
       passed (verdict run_sensitivity sensitivity_params sensitivity_run)
       = passed (verdict run_sensitivity' sensitivity_params'
                   sensitivity_run')).
Proof.
  intros quality mc_checks check verdict.
  assert (∀ run params srun,
    passed (verdict run params srun)
    = Qle_bool (training_min_profit_factor criteria)
        (default 0%Q (enhanced_metrics !! "profit_factor"))
      && Qle_bool (training_min_sharpe criteria)
           (default 0%Q (enhanced_metrics !! "sharpe_ratio"))
      && Z.leb (training_min_trades criteria) (total_trades backtest)
      && Qle_bool (min_mc_score criteria)
           (default 0%Q (score (combined mc_results)))
      && Qle_bool (min_mc_percentile criteria)
           (default 0%Q (percentile (combined mc_results)))
      && mc_individual_tests criteria mc_results test_suitability) as Hval.
  { intros run params srun. subst verdict. unfold validate. simpl.
    set (sens := if run && _ then _check_sensitivity criteria _ else ∅).
    assert (∀ key,
      key = "mc_score" ∨ key = "mc_percentile"
      ∨ key = "mc_individual_tests" → sens !! key = None) as Hsens.
    { intros key Hkey. subst sens.
      destruct (run && _); [by apply check_sensitivity_not_mc|].
      apply lookup_empty. }
    rewrite !all_checks_mc by
      (first [apply Hsens; tauto
             | unfold _check_monte_carlo_suite_conditional;
               by rewrite ?lookup_insert_eq, ?lookup_insert_ne by done]).
    unfold _check_backtest_quality. rewrite quality_all.
    unfold _check_monte_carlo_suite_conditional.
    rewrite lookup_insert_eq.
    rewrite (lookup_insert_ne _ "mc_individual_tests" "mc_score") by done.
    rewrite (lookup_insert_ne _ "mc_percentile" "mc_score") by done.
    rewrite (lookup_insert_ne _ "mc_individual_tests" "mc_percentile")
      by done.
    rewrite !lookup_insert_eq. simpl.
    by rewrite !andb_assoc. }
  refine (conj _ (conj _ _)).
  - rewrite Hval. subst check quality mc_checks.
    unfold _check_backtest_quality, _check_monte_carlo_suite_conditional.
    by rewrite ?lookup_insert_eq, ?lookup_insert_ne by done.
  - apply Hval.
  - intros run' params' srun'. by rewrite !Hval.
Qed.

End ValidationFacts.

(** ** Live entry handling *)

Module LiveTradingFacts.
Import LiveTrading Specified Samples.

Section Facts.
Context {A : Type}.
Variable get_account_balance : A → A * result Balance.
Variable place_market_order : string → string → Q → A → A * result Order.
Variable place_stop_market_order :
  string → string → Q → Q → bool → A → A * result Order.
Variable calculate_margin : Q → Q → result Q.

Lemma quiet_cons c calls :
  market_order_raised c = false → quiet calls → quiet (c :: calls).
Proof. unfold quiet. simpl. by intros -> ->. Qed.

(** [_place_stop_loss] catches whatever its order raises: it returns, makes
    no [place_market_order] call and leaves the counters alone. *)
Lemma place_stop_loss_returns quantity stop_price side (w : World) :
  ∃ w' calls,
    _place_stop_loss place_stop_market_order quantity stop_price side w
    = (w', calls, Ok tt)
    ∧ quiet calls
    ∧ trades_executed (engine w') = trades_executed (engine w)
    ∧ trades_skipped (engine w') = trades_skipped (engine w).
Proof.
  unfold _place_stop_loss, try_except, mbind, M_bind, read, call, update,
    mret, M_ret. simpl.
  destruct (place_stop_market_order _ _ _ _ _ _) as [a [order | e]]; simpl;
    by eexists _, _.
Qed.

(** C9.  Whenever a run of [_process_entry_signal] called
    [place_market_order] and that call raised, the run itself returns
    normally, [trades_skipped] has grown by exactly one and
    [trades_executed] is unchanged. *)
Theorem entry_order_failure_is_skipped
    (signal : Signal) (current_price : Q) (w w' : World)
    (calls : list AdapterCall) (r : result unit) :
  _process_entry_signal get_account_balance place_market_order
    place_stop_market_order calculate_margin signal current_price w
  = (w', calls, r) →
  existsb market_order_raised calls = true →
  r = Ok tt
  ∧ trades_skipped (engine w') = (trades_skipped (engine w) + 1)%Z
  ∧ trades_executed (engine w') = trades_executed (engine w).
Proof.
  unfold _process_entry_signal.
  destruct (quantity signal) as [quantity|]; [|by intros [= <- <- <-]].
  destruct (negb (truthy quantity) || Qle_bool quantity 0);
    [by intros [= <- <- <-]|].
  unfold mbind, M_bind, read at 1 2. simpl.
  case_bool_decide; [by intros [= <- <- <-]|].
  unfold call at 1.
  destruct (get_account_balance (adapter w)) as [a1 [balance | e]]; simpl;
    [|by intros [= <- <- <-]].
  destruct (Qle_bool (available_balance balance) 0); simpl;
    [by intros [= <- <- <-]|].
  unfold lift.
  destruct (calculate_margin current_price quantity) as [margin | e]; simpl;
    [|by intros [= <- <- <-]].
  destruct (Qlt_bool (available_balance balance) margin); simpl;
    [by intros [= <- <- <-]|].
  unfold try_except, call. simpl.
  destruct (place_market_order _ _ _ _) as [a2 [order | e]]; simpl.
  - (* the order went through: nothing raised afterwards *)
    set (side := if bool_decide (action signal = Some "BUY")
                 then "BUY" else "SELL").
    set (w1 := {| engine := count_trade (engine w); adapter := a2 |}).
    assert (∃ w2 calls2,
      match stop_price signal with
      | Some stop =>
          if truthy stop
          then _place_stop_loss place_stop_market_order quantity stop side
          else mret ()
      | None => mret ()
      end w1 = (w2, calls2, Ok tt) ∧ quiet calls2)
      as (w2 & calls2 & -> & Hquiet).
    { destruct (stop_price signal) as [stop|]; [|by eexists _, _].
      destruct (truthy stop); [|by eexists _, _].
      destruct (place_stop_loss_returns quantity stop side w1)
        as (w2 & calls2 & -> & Hquiet & _).
      by eexists _, _. }
    intros [= <- <- <-] Hraised. exfalso.
    apply not_true_iff_false in Hraised; [done|].
    by repeat apply quiet_cons.
  - (* the order raised: the handler counts a skipped trade *)
    by intros [= <- <- <-].
Qed.

End Facts.

Lemma entry_order_failure_is_skipped_witness :
  let w := {| engine := flat_engine; adapter := 0 |} in
  let '(w', calls, r) :=
    _process_entry_signal funded refuse_market_order refuse_stop_order
      tenth_margin buy_signal 100 w in
  r = Ok tt
  ∧ trades_skipped (engine w') = (trades_skipped (engine w) + 1)%Z
  ∧ trades_executed (engine w') = trades_executed (engine w).
Proof.
  apply (entry_order_failure_is_skipped funded refuse_market_order
           refuse_stop_order tenth_margin buy_signal 100
           {| engine := flat_engine; adapter := 0 |}
           _ [GetAccountBalance None;
              PlaceMarketOrder "BTCUSDT" "BUY" 2
                (Some (Exception "order rejected"))]);
    reflexivity.
Defined.

End LiveTradingFacts.

(** ** Position sizing and the broker's checks *)

Module MarketSizingFacts.
Import MarketEconomics MarketSizing Specified MoreSamples.
Import MarketEconomicsFacts.
Local Open Scope Q_scope.

(** X3.  Leverage plays no part in sizing: the pip values, the lot size and
    the quantity are the same at every leverage. *)
Theorem sizing_ignores_leverage
    (self : MarketSpec) (l risk_amount stop_loss_pips entry_price : Q) :
  calculate_pip_value_per_lot (with_leverage self l) entry_price
  = calculate_pip_value_per_lot self entry_price
  ∧ calculate_pip_value_per_unit (with_leverage self l) entry_price
    = calculate_pip_value_per_unit self entry_price
  ∧ calculate_lot_size_from_risk (with_leverage self l) risk_amount
      stop_loss_pips entry_price
    = calculate_lot_size_from_risk self risk_amount stop_loss_pips
        entry_price
  ∧ calculate_quantity_from_risk (with_leverage self l) risk_amount
      stop_loss_pips entry_price
    = calculate_quantity_from_risk self risk_amount stop_loss_pips
        entry_price.
Proof. done. Qed.

(** *** Exceptions *)

Lemma py_div_raise (a b : Q) (e : exn) :
  py_div a b = Raise e ↔ e = ZeroDivisionError ∧ b == 0.
Proof.
  unfold py_div. destruct (Qeq_bool b 0) eqn:Hb.
  - apply Qeq_bool_iff in Hb. split; [by intros [= <-] | by intros [-> _]].
  - apply Qeq_bool_neq in Hb. split; [done | by intros [_ ?]].
Qed.

Lemma leverage_margin (self : MarketSpec) (entry_price quantity : Q)
    (is_intraday : bool) :
  is_futures self = false ∨ initial_margin_per_contract self = None →
  calculate_margin self entry_price quantity is_intraday
  = py_div (entry_price * Qabs quantity) (leverage self).
Proof.
  unfold calculate_margin. intros [-> | ->]; [done|].
  by destruct (is_futures self).
Qed.

Lemma fixed_margin_returns (self : MarketSpec) (entry_price quantity : Q)
    (is_intraday : bool) :
  is_futures self = true → is_Some (initial_margin_per_contract self) →
  ∃ margin, calculate_margin self entry_price quantity is_intraday = Ok margin.
Proof.
  unfold calculate_margin. intros -> [im ->].
  destruct is_intraday, (intraday_margin_per_contract self); by eexists.
Qed.

(** X4.  [calculate_margin] raises nothing but [ZeroDivisionError], and
    raises it exactly when the leverage formula applies (no fixed futures
    margin) and the leverage is zero. *)
Theorem calculate_margin_raises_iff
    (self : MarketSpec) (entry_price quantity : Q) (is_intraday : bool)
    (e : exn) :
  calculate_margin self entry_price quantity is_intraday = Raise e
  ↔ e = ZeroDivisionError
    ∧ leverage self == 0
    ∧ (is_futures self = false ∨ initial_margin_per_contract self = None).
Proof.
  destruct (is_futures self) eqn:Hfut.
  - destruct (initial_margin_per_contract self) as [im|] eqn:Him.
    + destruct (fixed_margin_returns self entry_price quantity is_intraday
                  Hfut) as [margin ->]; [by rewrite Him|].
      split; [done | by intros (_ & _ & [? | ?])].
    + rewrite leverage_margin by (by right). rewrite py_div_raise.
      split; [by intros [? ?]; eauto | by intros (? & ? & _)].
  - rewrite leverage_margin by (by left). rewrite py_div_raise.
    split; [by intros [? ?]; eauto | by intros (? & ? & _)].
Qed.

Lemma calculate_margin_raises_iff_witness :
  calculate_margin (with_leverage eurusd 0) 1 1000 true
  = Raise ZeroDivisionError.
Proof.
  apply (calculate_margin_raises_iff (with_leverage eurusd 0) 1 1000 true).
  split; [reflexivity|]. split; [reflexivity | by left].
Defined.

(** *** The broker's checks *)




Lemma check_margin_call_used (self : Broker) (equity margin_used : Q) :
  0 < margin_used →
  check_margin_call self equity margin_used
  = Ok (Qle_bool equity 0
        || Qlt_bool (equity / margin_used) (margin_call_level self)).
Proof.
  intros Hused. unfold check_margin_call.
  rewrite (proj2 (Qle_bool_false_iff _ _) Hused).
  destruct (Qle_bool equity 0); [done|].
  rewrite (proj2 (Qlt_bool_iff _ _) Hused).
  by rewrite py_div_ok by lra.
Qed.

Lemma check_margin_call_unused (self : Broker) (equity margin_used : Q) :
  margin_used <= 0 → check_margin_call self equity margin_used = Ok false.
Proof.
  intros Hunused. unfold check_margin_call.
  by rewrite (proj2 (Qle_bool_iff _ _) Hunused).
Qed.

(** X8.  A margin call persists as equity falls: if [check_margin_call]
    fires at some equity, it fires at every lower equity for the same margin
    in use. *)
Theorem margin_call_persists_below
    (self : Broker) (equity lower_equity margin_used : Q) :
  lower_equity <= equity →
  check_margin_call self equity margin_used = Ok true →
  check_margin_call self lower_equity margin_used = Ok true.
Proof.
  intros Hlower.
  destruct (Qlt_le_dec 0 margin_used) as [Hused | Hunused].
  2: { by rewrite check_margin_call_unused. }
  rewrite !check_margin_call_used by done.
  intros [= Hcall]. f_equal.
  apply orb_true_iff in Hcall. apply orb_true_iff.
  rewrite !Qle_bool_iff, !Qlt_bool_iff in *.
  destruct (Qlt_le_dec 0 lower_equity) as [Hpos | Hneg]; [right | by left].
  destruct Hcall as [Hfloor | Hratio]; [lra|].
  apply Qle_lt_trans with (equity / margin_used); [|done].
  apply Qmult_le_compat_r; [done|].
  by apply Qlt_le_weak, Qinv_lt_0_compat.
Qed.

Lemma margin_call_persists_below_witness :
  check_margin_call eurusd_broker 50 100 = Ok true.
Proof.
  apply (margin_call_persists_below eurusd_broker 90 50 100);
    [lra | reflexivity].
Defined.

End MarketSizingFacts.

(** ** The legacy check, the sensitivity checks and the failure reasons *)

Module ValidationReportFacts.
Import Validation Specified ValidationReport MoreSamples.
Import ValidationFacts.

(** *** The legacy suite check *)

(** X13.  The legacy check treats all three tests as suitable: its
    individual-tests check holds exactly when at least two of the three
    tests pass, a skipped permutation or bootstrap test counting as failed. *)
Theorem legacy_check_needs_two_of_three
    (criteria : TrainingValidationCriteria) (mc : MonteCarloSuiteResult) :
  let max_p := monte_carlo_p_value_max criteria in
  let ran (res : TestResult) := negb (default false (skipped res)) in
  let majority (res : TestResult) :=
    majority_rule max_p (default ∅ (p_values res)) in
  _check_monte_carlo_suite criteria mc !! "mc_individual_tests"
  = Some (Nat.leb 2
            (py_sum [ran (permutation mc) && majority (permutation mc);
                     ran (bootstrap mc) && majority (bootstrap mc);
                     majority (randomized_entry mc)])).
Proof.
  intros max_p ran majority.
  unfold _check_monte_carlo_suite, _check_monte_carlo_suite_conditional.
  rewrite lookup_insert_eq. f_equal.
Qed.

(** *** The sensitivity checks *)

Lemma string_length_app (s t : string) :
  String.length (s ++ t) = String.length s + String.length t.
Proof. induction s as [|c s IH]; simpl; [done | by rewrite IH]. Qed.

Lemma string_app_inj_r (s1 s2 t : string) :
  (s1 ++ t = s2 ++ t)%string → s1 = s2.
Proof.
  revert s2. induction s1 as [|c s1 IH]; intros [|c2 s2] Heq.
  - done.
  - apply (f_equal String.length) in Heq.
    rewrite !string_length_app in Heq. simpl in Heq. lia.
  - apply (f_equal String.length) in Heq.
    rewrite !string_length_app in Heq. simpl in Heq. lia.
  - simpl in Heq. injection Heq as -> Heq. f_equal. by apply IH.
Qed.

Lemma sensitivity_key_inj (p q : string) :
  sensitivity_key p = sensitivity_key q → p = q.
Proof.
  unfold sensitivity_key. simpl. intros [= Heq].
  by apply (string_app_inj_r p q "_cv") in Heq.
Qed.

Lemma sensitivity_key_not_overall (p : string) :
  sensitivity_key p ≠ "sensitivity_cv".
Proof.
  unfold sensitivity_key. simpl. intros [= Heq].
  apply (f_equal String.length) in Heq.
  change (String.length (p +:+ "_cv") = 2) in Heq.
  rewrite string_length_app in Heq. simpl in Heq. lia.
Qed.

Section Sensitivity.
Variable criteria : TrainingValidationCriteria.

Lemma per_parameter_other acc items key :
  (∀ item, item ∈ items → sensitivity_key item.1 ≠ key) →
  per_parameter criteria acc items !! key = acc !! key.
Proof.
  revert acc. induction items as [|item items IH]; intros acc Hother; [done|].
  simpl. fold (per_parameter criteria
    (<[sensitivity_key item.1 := cv_within criteria item.2]> acc) items).
  rewrite IH by (intros i Hi; apply Hother; by right).
  apply lookup_insert_ne, Hother. by left.
Qed.

Lemma per_parameter_lookup acc items param analysis :
  NoDup items.*1 → (param, analysis) ∈ items →
  per_parameter criteria acc items !! sensitivity_key param
  = Some (cv_within criteria analysis).
Proof.
  revert acc. induction items as [|item items IH]; intros acc Hnd Hin.
  { by apply elem_of_nil in Hin. }
  simpl in Hnd. apply NoDup_cons in Hnd as [Hfresh Hnd].
  simpl. fold (per_parameter criteria
    (<[sensitivity_key item.1 := cv_within criteria item.2]> acc) items).
  apply elem_of_cons in Hin as [<- | Hin]; [|by apply IH].
  rewrite per_parameter_other; [apply lookup_insert_eq|].
  intros other Hother Hkey. apply sensitivity_key_inj in Hkey.
  apply Hfresh. simpl. rewrite <- Hkey.
  apply list_elem_of_fmap. by exists other.
Qed.

Lemma check_sensitivity_parameter res param analysis :
  sensitivity_analysis res !! param = Some analysis →
  _check_sensitivity criteria (Some res) !! sensitivity_key param
  = Some (cv_within criteria analysis).
Proof.
  intros Hparam. unfold _check_sensitivity.
  rewrite lookup_insert_ne by (apply not_eq_sym, sensitivity_key_not_overall).
  apply (per_parameter_lookup ∅).
  - apply NoDup_fst_map_to_list.
  - by apply elem_of_map_to_list.
Qed.

Lemma check_sensitivity_overall res :
  _check_sensitivity criteria (Some res) !! "sensitivity_cv"
  = Some (py_all (cv_within criteria <$> values (sensitivity_analysis res))).
Proof. unfold _check_sensitivity. apply lookup_insert_eq. Qed.

Lemma py_all_cv_within (analyses : gmap string (gmap string Q)) :
  py_all (cv_within criteria <$> values analyses) = true
  ↔ ∀ param analysis, analyses !! param = Some analysis →
                      cv_within criteria analysis = true.
Proof.
  unfold py_all, values. rewrite forallb_forall. split.
  - intros Hall param analysis Hparam.
    apply (Hall (cv_within criteria analysis)).
    apply list_elem_of_In, list_elem_of_fmap. exists analysis. split; [done|].
    apply list_elem_of_fmap. exists (param, analysis).
    split; [done | by apply elem_of_map_to_list].
  - intros Hall b Hb.
    apply list_elem_of_In, list_elem_of_fmap in Hb as (analysis & -> & Hin).
    apply list_elem_of_fmap in Hin as ([param a] & -> & Hin).
    apply elem_of_map_to_list in Hin. by apply (Hall param).
Qed.

(** X14.  [_check_sensitivity] records one check for each analysed parameter,
    under a key of its own, and the overall check ['sensitivity_cv'] is set
    and holds exactly when all of them hold. *)
Theorem sensitivity_overall_is_conjunction (res : SensitivityResults) :
  let checks := _check_sensitivity criteria (Some res) in
  (∀ param analysis,
     sensitivity_analysis res !! param = Some analysis →
     checks !! sensitivity_key param = Some (cv_within criteria analysis))
  ∧ ∃ overall,
      checks !! "sensitivity_cv" = Some overall
      ∧ (overall = true
         ↔ ∀ param, is_Some (sensitivity_analysis res !! param) →
                    checks !! sensitivity_key param = Some true).
Proof.
  intros checks. split; [apply check_sensitivity_parameter|].
  eexists. split; [apply check_sensitivity_overall|].
  rewrite py_all_cv_within. split.
  - intros Hall param [analysis Hparam]. subst checks.
    rewrite (check_sensitivity_parameter _ _ _ Hparam).
    f_equal. by apply (Hall param).
  - intros Hall param analysis Hparam.
    specialize (Hall param (ex_intro _ analysis Hparam)). subst checks.
    rewrite (check_sensitivity_parameter _ _ _ Hparam) in Hall.
    by injection Hall.
Qed.

(** X16.  With no parameter analysed, the sensitivity checks consist of the
    overall check alone, and it holds. *)
Theorem empty_analysis_passes (res : SensitivityResults) :
  sensitivity_analysis res = ∅ →
  _check_sensitivity criteria (Some res) = {["sensitivity_cv" := true]}.
Proof.
  intros Hempty. unfold _check_sensitivity, values.
  by rewrite Hempty, map_to_list_empty.
Qed.

End Sensitivity.

Lemma sensitivity_overall_is_conjunction_witness :
  _check_sensitivity sample_criteria (Some sample_sensitivity)
    !! sensitivity_key "fast_length"
  = Some (cv_within sample_criteria
            (<["coefficient_of_variation" := (1 # 10)%Q]> ∅)).
Proof.
  apply (proj1 (sensitivity_overall_is_conjunction sample_criteria
                  sample_sensitivity) "fast_length").
  reflexivity.
Defined.

Lemma empty_analysis_passes_witness :
  _check_sensitivity sample_criteria (Some {| sensitivity_analysis := ∅ |})
  = {["sensitivity_cv" := true]}.
Proof.
  apply (empty_analysis_passes sample_criteria
           {| sensitivity_analysis := ∅ |}).
  reflexivity.
Defined.

(** *** The failure reasons *)

Lemma six_checks (a b c d e f : bool) (sens : gmap string bool) (key : string) :
  (∀ k, is_Some (sens !! k) → sensitivity_named k) →
  let quality : gmap string bool :=
    <["min_trades" := c]> (<["min_sharpe" := b]>
      (<["min_profit_factor" := a]> ∅)) in
  let mc : gmap string bool :=
    <["mc_individual_tests" := f]> (<["mc_percentile" := e]>
      (<["mc_score" := d]> ∅)) in
  let all_checks := dict_merge (dict_merge quality mc) sens in
  all_checks !! "min_profit_factor" = Some a
  ∧ all_checks !! "min_sharpe" = Some b
  ∧ all_checks !! "min_trades" = Some c
  ∧ all_checks !! "mc_score" = Some d
  ∧ all_checks !! "mc_percentile" = Some e
  ∧ all_checks !! "mc_individual_tests" = Some f.
Proof.
  intros Hsens quality mc all_checks.
  assert (∀ k v, (mc ∪ quality) !! k = Some v → ¬ sensitivity_named k →
                 all_checks !! k = Some v) as Hplain.
  { intros k v Hk Hnamed. subst all_checks. unfold dict_merge.
    rewrite lookup_union_r; [done|].
    apply eq_None_not_Some. intros Hsome. by apply Hnamed, Hsens. }
  refine (conj _ (conj _ (conj _ (conj _ (conj _ _)))));
    (apply Hplain; [by vm_compute | by intros [rest [=]]]).
Qed.

Section Reasons.
Variable criteria : TrainingValidationCriteria.
Variable format_float : string → Q → string.
Variable format_int : Z → string.
Variable backtest : BacktestResult.
Variable enhanced_metrics : gmap string Q.
Variable test_suitability : gmap string TestSuitability.
Variable mc_results : MonteCarloSuiteResult.
Variable run_sensitivity : bool.
Variable sensitivity_params : option (gmap string (list Q)).
Variable sensitivity_run : SensitivityResults.

Local Abbreviation the_verdict :=
  (validate criteria backtest enhanced_metrics test_suitability mc_results
     run_sensitivity sensitivity_params sensitivity_run).

Local Abbreviation the_reasons :=
  (failure_reasons criteria format_float format_int backtest enhanced_metrics
     test_suitability mc_results run_sensitivity sensitivity_params
     sensitivity_run).

(** The seven conditions under which [validate] appends a reason. *)
Lemma verdict_and_reasons :
  ∃ a b c d e f sens : bool,
    c = Z.leb (training_min_trades criteria) (total_trades backtest)
    ∧ passed the_verdict = a && b && c && (d && e) && f
    ∧ (sensitivity_results the_verdict = None → sens = false)
    ∧ the_reasons
      = ((if negb a then [reason_profit_factor criteria format_float
                            (default 0%Q (enhanced_metrics !! "profit_factor"))]
          else [])
         ++ (if negb b then [reason_sharpe criteria format_float
                               (default 0%Q (enhanced_metrics !! "sharpe_ratio"))]
             else [])
         ++ (if negb c then [reason_trades criteria format_int
                               (total_trades backtest)]
             else [])
         ++ (if negb d then [reason_mc_score criteria format_float
                               (default 0%Q (score (combined mc_results)))]
             else [])
         ++ (if negb e then [reason_mc_percentile criteria format_float
                               (default 0%Q (percentile (combined mc_results)))]
             else [])
         ++ (if negb f then [reason_individual_tests
                               (length (suitable_tests test_suitability))]
             else [])
         ++ (if sens then [reason_sensitivity] else []))%list.
Proof.
  unfold failure_reasons, validate.
  cbn [passed criteria_checks sensitivity_results].
  set (requested := run_sensitivity && _).
  set (sens_checks := if requested then _ else ∅).
  assert (∀ k, is_Some (sens_checks !! k) → sensitivity_named k) as Hsens.
  { intros k. subst sens_checks. destruct requested.
    - apply check_sensitivity_keys.
    - rewrite lookup_empty. by intros [? ?]. }
  unfold _check_backtest_quality, _check_monte_carlo_suite_conditional.
  set (a := Qle_bool (training_min_profit_factor criteria) _).
  set (b := Qle_bool (training_min_sharpe criteria) _).
  set (c := Z.leb _ _).
  set (d := Qle_bool (min_mc_score criteria) _).
  set (e := Qle_bool (min_mc_percentile criteria) _).
  set (f := mc_individual_tests criteria mc_results test_suitability).
  destruct (six_checks a b c d e f sens_checks "" Hsens)
    as (Ha & Hb & Hc & Hd & He & Hf).
  unfold reason_unless. rewrite Ha, Hb, Hc, Hd, He, Hf, quality_all.
  cbn [default].
  set (all_checks := dict_merge _ sens_checks).
  exists a, b, c, d, e, f.
  exists (dict_truthy
            (_check_sensitivity criteria
               (if requested then Some sensitivity_run else None))
          && negb (default true (all_checks !! "sensitivity_cv"))).
  split; [done|]. split; [done|]. split.
  - destruct requested; [done|]. by intros _.
  - by destruct (dict_truthy _), (negb (default true _)).
Qed.

(** X17.  The verdict and the reasons agree: a failed validation always
    carries at least one reason, and a passed one carries none, or only the
    sensitivity reason (which never fails a validation); without a
    sensitivity run, it passes exactly when there is no reason. *)
Theorem verdict_and_reasons_agree :
  (passed the_verdict = false → the_reasons ≠ [])
  ∧ (passed the_verdict = true →
     the_reasons = [] ∨ the_reasons = [reason_sensitivity])
  ∧ (sensitivity_results the_verdict = None →
     (passed the_verdict = true ↔ the_reasons = [])).
Proof.
  destruct verdict_and_reasons
    as (a & b & c & d & e & f & sens & _ & -> & Hsens & ->).
  refine (conj _ (conj _ _)).
  - by destruct a, b, c, d, e, f.
  - destruct a, b, c, d, e, f, sens; try done; by (left + right).
  - intros Hnone. rewrite (Hsens Hnone).
    by destruct a, b, c, d, e, f.
Qed.

(** X18.  Too few trades fail the validation, and the reason for it is among
    the failure reasons. *)
Theorem too_few_trades_fail :
  (total_trades backtest < training_min_trades criteria)%Z →
  passed the_verdict = false
  ∧ reason_trades criteria format_int (total_trades backtest) ∈ the_reasons.
Proof.
  intros Hfew.
  destruct verdict_and_reasons
    as (a & b & c & d & e & f & sens & Hc & -> & _ & ->).
  assert (c = false) as -> by (rewrite Hc; apply Z.leb_gt; lia).
  split; [by destruct a, b|].
  cbn [negb]. rewrite !elem_of_app. do 2 right. left. by left.
Qed.

End Reasons.

Lemma verdict_and_reasons_agree_witness :
  let reasons :=
    failure_reasons sample_criteria (λ _ _, "x") (λ _, "n")
      {| total_trades := 0 |} ∅ (suitability true true true)
      (suite two_of_three two_of_three two_of_three) false None
      sample_sensitivity in
  reasons ≠ [].
Proof.
  apply (proj1 (verdict_and_reasons_agree sample_criteria (λ _ _, "x")
                  (λ _, "n") {| total_trades := 0 |} ∅
                  (suitability true true true)
                  (suite two_of_three two_of_three two_of_three) false None
                  sample_sensitivity)).
  reflexivity.
Defined.

Lemma too_few_trades_fail_witness :
  passed (validate sample_criteria {| total_trades := 0 |} ∅
            (suitability true true true)
            (suite two_of_three two_of_three two_of_three) false None
            sample_sensitivity) = false
  ∧ reason_trades sample_criteria (λ _, "n") 0
    ∈ failure_reasons sample_criteria (λ _ _, "x") (λ _, "n")
        {| total_trades := 0 |} ∅ (suitability true true true)
        (suite two_of_three two_of_three two_of_three) false None
        sample_sensitivity.
Proof.
  apply (too_few_trades_fail sample_criteria (λ _ _, "x") (λ _, "n")
           {| total_trades := 0 |} ∅ (suitability true true true)
           (suite two_of_three two_of_three two_of_three) false None
           sample_sensitivity).
  reflexivity.
Defined.

End ValidationReportFacts.

(** ** The outcomes of an entry signal *)

Module EntryRunsFacts.
Import LiveTrading Specified EntryRuns MoreSamples.

Section Facts.
Context {A : Type}.
Variable get_account_balance : A → A * result Balance.
Variable place_market_order : string → string → Q → A → A * result Order.
Variable place_stop_market_order :
  string → string → Q → Q → bool → A → A * result Order.
Variable calculate_margin : Q → Q → result Q.

Local Abbreviation process_entry :=
  (_process_entry_signal get_account_balance place_market_order
     place_stop_market_order calculate_margin).
Local Abbreviation run_of signal current_price w :=
  (entry_run get_account_balance place_market_order place_stop_market_order
     calculate_margin signal current_price w).

(** Every run of [_process_entry_signal] is one of the listed runs. *)
Lemma entry_run_complete (signal : Signal) (current_price : Q) (w : World) :
  run_of signal current_price w (process_entry signal current_price w).
Proof.
  unfold _process_entry_signal.
  destruct (quantity signal) as [q|] eqn:Hq.
  2: { apply run_invalid_quantity. intros q [? _]. congruence. }
  destruct (negb (truthy q) || Qle_bool q 0) eqn:Hvalid.
  { apply run_invalid_quantity. intros q' [Hq' Hpos].
    rewrite Hq in Hq'. injection Hq' as <-.
    apply orb_true_iff in Hvalid as [Hzero | Hneg].
    - apply negb_true_iff, truthy_false_iff in Hzero. lra.
    - apply Qle_bool_iff in Hneg. lra. }
  apply orb_false_iff in Hvalid as [_ Hpos]. apply Qle_bool_false_iff in Hpos.
  assert (entry_quantity signal q) as Hquantity by done.
  unfold mbind, M_bind, read at 1 2. simpl.
  case_bool_decide as Hheld; [by eapply run_position_held|].
  unfold call at 1.
  destruct (get_account_balance (adapter w)) as [a1 [balance | e]] eqn:Hbal;
    simpl; [|by eapply run_balance_raised].
  destruct (Qle_bool (available_balance balance) 0) eqn:Havail; simpl.
  { apply Qle_bool_iff in Havail. by eapply run_no_balance. }
  apply Qle_bool_false_iff in Havail.
  unfold lift.
  destruct (calculate_margin current_price q) as [margin | e] eqn:Hmargin;
    simpl; [|by eapply run_margin_raised].
  destruct (Qlt_bool (available_balance balance) margin) eqn:Henough; simpl.
  { apply Qlt_bool_iff in Henough. by eapply run_no_margin. }
  apply Qlt_bool_false_iff in Henough.
  unfold try_except, call. simpl.
  fold (entry_side signal).
  destruct (place_market_order (symbol (engine w)) (entry_side signal) q a1)
    as [a2 [order | e]] eqn:Horder; simpl; [|by eapply run_order_raised].
  destruct (stop_price signal) as [stop|] eqn:Hstop.
  2: { simpl. eapply run_executed; try done. intros ? ?. congruence. }
  destruct (truthy stop) eqn:Htruthy.
  2: { simpl. eapply run_executed; try done.
       intros stop' Hstop'. rewrite Hstop in Hstop'. injection Hstop' as <-.
       by apply truthy_false_iff. }
  apply truthy_true_iff in Htruthy.
  unfold _place_stop_loss, try_except, mbind, M_bind, read, call, update,
    mret, M_ret. simpl. fold (stop_side signal).
  destruct (place_stop_market_order (symbol (engine w)) (stop_side signal)
              q stop true a2) as [a3 [stop_order | e]] eqn:Hstop_order;
    simpl.
  - by eapply run_protected.
  - by eapply run_unprotected.
Qed.

Ltac entry_cases signal current_price w :=
  let Hrun := fresh "Hrun" in
  pose proof (entry_run_complete signal current_price w) as Hrun;
  destruct (process_entry signal current_price w) as [[? ?] ?];
  inversion Hrun; subst; clear Hrun; simpl in *.

(** X19.  One entry signal counts one trade at most: a run of
    [_process_entry_signal] leaves both counters alone, or adds one to
    [trades_executed], or adds one to [trades_skipped]; it adds to
    [trades_executed] exactly when a [place_market_order] call returned; and
    it never touches the active positions. *)
Theorem entry_counts_one_trade_at_most
    (signal : Signal) (current_price : Q) (w : World) :
  let '(w', calls, r) := process_entry signal current_price w in
  let executed := (trades_executed (engine w') - trades_executed (engine w))%Z in
  let skipped := (trades_skipped (engine w') - trades_skipped (engine w))%Z in
  ((executed, skipped) = (0, 0)%Z ∨ (executed, skipped) = (1, 0)%Z
   ∨ (executed, skipped) = (0, 1)%Z)
  ∧ (executed = 1%Z ↔ existsb market_order_filled calls = true)
  ∧ active_positions (engine w') = active_positions (engine w).
Proof.
  entry_cases signal current_price w;
    (split; [|split; [|done]]);
    rewrite ?Z.sub_diag, ?Z.add_simpl_l; try (by left);
    try (by right; left); try (by right; right); done.
Qed.


(** X21.  A stop order is only placed once the entry order is filled, on the
    opposite side and reduce-only; if it raises, the failure is swallowed:
    the run returns, the trade stays counted as executed, and no stop order
    is registered. *)
Theorem stop_loss_failure_is_swallowed
    (signal : Signal) (current_price : Q) (w : World) :
  let '(w', calls, r) := process_entry signal current_price w in
  ∀ sym side q stop reduce_only raised,
    PlaceStopMarketOrder sym side q stop reduce_only raised ∈ calls →
    existsb market_order_filled calls = true
    ∧ side = stop_side signal ∧ reduce_only = true
    ∧ stop_price signal = Some stop
    ∧ r = Ok tt
    ∧ trades_executed (engine w') = (trades_executed (engine w) + 1)%Z
    ∧ trades_skipped (engine w') = trades_skipped (engine w)
    ∧ (is_Some raised →
       active_stop_orders (engine w') = active_stop_orders (engine w)).
Proof.
  entry_cases signal current_price w;
    intros sym side q' stop' reduce_only raised Hin;
    repeat match goal with
    | H : _ ∈ [] |- _ => by apply elem_of_nil in H
    | H : _ ∈ _ :: _ |- _ => apply elem_of_cons in H as [H | H]
    end; try done;
    injection Hin as -> -> -> -> -> ->;
    repeat split; try done; by intros [? ?].
Qed.

(** X22.  The only exceptions that leave [_process_entry_signal] are those of
    the balance query and of the margin computation; they leave before any
    order is placed, with the engine as it was. *)
Theorem entry_raises_only_from_queries
    (signal : Signal) (current_price : Q) (w : World) :
  let '(w', calls, r) := process_entry signal current_price w in
  ∀ e, r = Raise e →
    engine w' = engine w
    ∧ (calls = [GetAccountBalance (Some e)]
       ∨ (calls = [GetAccountBalance None]
          ∧ ∃ q, quantity signal = Some q
                 ∧ calculate_margin current_price q = Raise e)).
Proof.
  entry_cases signal current_price w; intros e' [= <-].
  - split; [done | by left].
  - split; [done|]. right. split; [done|].
    match goal with H : entry_quantity _ _ |- _ => destruct H end. eauto.
Qed.

End Facts.


Lemma stop_loss_failure_is_swallowed_witness :
  let w := {| engine := flat_engine; adapter := 0 |} in
  let '(w', calls, r) :=
    _process_entry_signal funded accept_market_order refuse_stop_order
      tenth_margin buy_signal 100 w in
  r = Ok tt
  ∧ trades_executed (engine w') = (trades_executed (engine w) + 1)%Z
  ∧ trades_skipped (engine w') = trades_skipped (engine w)
  ∧ active_stop_orders (engine w') = active_stop_orders (engine w).
Proof.
  intros w.
  destruct (stop_loss_failure_is_swallowed funded accept_market_order
              refuse_stop_order tenth_margin buy_signal 100 w
              "BTCUSDT" "SELL" 2%Q 95%Q true
              (Some (Exception "order rejected")))
    as (_ & _ & _ & _ & Hr & Hexecuted & Hskipped & Hstops).
  { right. right. left. }
  refine (conj Hr (conj Hexecuted (conj Hskipped (Hstops _)))).
  by eexists.
Defined.

Lemma entry_raises_only_from_queries_witness :
  let w := {| engine := flat_engine; adapter := 0 |} in
  let '(w', calls, r) :=
    _process_entry_signal unreachable refuse_market_order refuse_stop_order
      tenth_margin buy_signal 100 w in
  engine w' = engine w
  ∧ (calls = [GetAccountBalance (Some (Exception "timeout"))]
     ∨ (calls = [GetAccountBalance None]
        ∧ ∃ q, quantity buy_signal = Some q
               ∧ tenth_margin 100 q = Raise (Exception "timeout"))).
Proof.
  intros w.
  apply (entry_raises_only_from_queries unreachable refuse_market_order
           refuse_stop_order tenth_margin buy_signal 100 w
           (Exception "timeout")).
  reflexivity.
Defined.

End EntryRunsFacts.

(** ** Safety limits, positions and exits of the live engine *)

Module LiveControlFacts.
Import LiveTrading LiveControl EntryRuns MoreSamples.

Section Facts.
Context {A : Type}.
Variable get_account_balance : A → A * result Balance.
Variable get_positions : string → A → A * result (list AdapterPosition).
Variable place_market_order :
  string → string → Q → option bool → A → A * result Order.
Variable place_stop_market_order :
  string → string → Q → Q → bool → A → A * result Order.
Variable cancel_order : string → string → A → A * result unit.
Variable calculate_margin : Q → Q → result Q.
Variable format_float : string → Q → string.
Variable items : ∀ V : Type, gmap string V → list (string * V).

Local Abbreviation safety :=
  (check_safety_limits get_account_balance format_float).

(** The state with the adapter moved on. *)
Local Abbreviation moved s a :=
  {| world := {| engine := engine (world s); adapter := a |};
     limits := limits s |}.

(** What a run of [check_safety_limits] comes to. *)
Lemma check_safety_limits_run (s : Live) :
  safety s
  = let '(a, queried) := get_account_balance (adapter (world s)) in
    let start := daily_start_balance (limits s) in
    let peak := peak_equity (limits s) in
    match queried with
    | Raise e => (moved s a, [Known (GetAccountBalance (Some e))], Raise e)
    | Ok balance =>
      let equity := total_balance balance in
      let calls := [Known (GetAccountBalance None)] in
      match py_div (start - equity) start with
      | Raise e => (moved s a, calls, Raise e)
      | Ok daily_loss =>
        if Qle_bool (max_daily_loss_pct (limits s)) (daily_loss * 100)
        then (moved s a, calls,
              Ok (true,
                  Some (daily_loss_reason format_float (daily_loss * 100))))
        else
          let high := if Qlt_bool peak equity then equity else peak in
          let s2 :=
            {| world := {| engine := engine (world s); adapter := a |};
               limits := if Qlt_bool peak equity
                         then set_peak_equity equity (limits s)
                         else limits s |} in
          match py_div (high - equity) high with
          | Raise e => (s2, calls, Raise e)
          | Ok drawdown =>
            if Qle_bool (max_drawdown_pct (limits s)) (drawdown * 100)
            then (s2, calls,
                  Ok (true,
                      Some (drawdown_reason format_float (drawdown * 100))))
            else (s2, calls, Ok (false, None))
          end
      end
    end.
Proof.
  unfold check_safety_limits, known, call, read_limits, lift, mbind, N_bind.
  destruct (get_account_balance (adapter (world s))) as [a [balance|e]];
    cbn; [|done].
  destruct (py_div _ _) as [daily_loss|e]; cbn; [|done].
  destruct (Qle_bool _ (daily_loss * 100)); cbn; [done|].
  destruct (Qlt_bool _ _); cbn;
    (destruct (py_div _ _) as [drawdown|e]; cbn; [|done]);
    by destruct (Qle_bool _ (drawdown * 100)).
Qed.


(** The check leaves the engine alone and makes one call, the balance
    query. *)
Lemma check_safety_limits_queries (s : Live) :
  let '(s', calls, r) := safety s in
  engine (world s') = engine (world s)
  ∧ ∃ raised, calls = [Known (GetAccountBalance raised)].
Proof.
  rewrite check_safety_limits_run.
  destruct (get_account_balance (adapter (world s))) as [a [balance|e]];
    cbn zeta; [|cbn; by eauto].
  destruct (py_div _ _) as [daily_loss|e]; [|cbn; by eauto].
  destruct (Qle_bool _ (daily_loss * 100)); [cbn; by eauto|].
  destruct (py_div _ _) as [drawdown|e]; [|cbn; by eauto].
  destruct (Qle_bool _ (drawdown * 100)); cbn; by eauto.
Qed.


(** X25.  Once the balance query has returned, [check_safety_limits]
    raises only [ZeroDivisionError], and exactly when the start-of-day
    balance is zero, or the daily-loss limit is not reached and the
    high-water mark is zero. *)
Theorem safety_check_raises_on_zero_level
    (s : Live) (a : A) (balance : Balance) (e : exn) :
  let equity := total_balance balance in
  let start := daily_start_balance (limits s) in
  let peak := peak_equity (limits s) in
  let high := if Qlt_bool peak equity then equity else peak in
  get_account_balance (adapter (world s)) = (a, Ok balance) →
  (safety s).2 = Raise e
  ↔ e = ZeroDivisionError
    ∧ (start == 0
       ∨ (¬ start == 0
          ∧ (start - equity) / start * 100 < max_daily_loss_pct (limits s)
          ∧ high == 0))%Q.
Proof.
  intros equity start peak high Hbalance.
  rewrite check_safety_limits_run, Hbalance. cbn zeta.
  fold equity start peak high.
  destruct (Qeq_dec start 0) as [Hzero|Hstart].
  { rewrite (py_div_zero _ _ Hzero). cbn. split; [intros [= <-]|intros [-> _]];
      [split; [done|by left]|done]. }
  rewrite (py_div_ok _ _ Hstart).
  destruct (Qle_bool _ ((start - equity) / start * 100)) eqn:Hstop.
  { apply Qle_bool_iff in Hstop. cbn. split; [done|].
    intros [_ [Hzero|(_ & Hbelow & _)]]; [done|lra]. }
  apply Qle_bool_false_iff in Hstop.
  destruct (Qeq_dec high 0) as [Hflat|Hhigh].
  { rewrite (py_div_zero _ _ Hflat). cbn. split; [intros [= <-]|intros [-> _]];
      [split; [done|by right]|done]. }
  rewrite (py_div_ok _ _ Hhigh).
  destruct (Qle_bool _ _); cbn; (split; [done|]);
    intros [_ [Hzero|(_ & _ & Hflat)]]; done.
Qed.

(** *** Positions *)

Lemma positions_by_symbol_lookup (positions : list AdapterPosition)
    (k : string) :
  positions_by_symbol positions !! k
  = last (List.filter
            (λ pos, String.eqb (pos_symbol pos) k && is_open pos) positions).
Proof.
  unfold positions_by_symbol.
  enough (∀ acc : gmap string AdapterPosition,
            foldl (λ acc pos, <[pos_symbol pos := pos]> acc) acc
              (List.filter is_open positions) !! k
            = match last (List.filter
                            (λ pos, String.eqb (pos_symbol pos) k
                                    && is_open pos) positions) with
              | Some pos => Some pos
              | None => acc !! k
              end) as Hgen.
  { rewrite Hgen, lookup_empty. by destruct (last _). }
  induction positions as [|pos positions IH]; intros acc; [done|].
  cbn [List.filter]. destruct (is_open pos) eqn:Hopen.
  - cbn [foldl]. rewrite IH.
    destruct (String.eqb_spec (pos_symbol pos) k) as [<-|Hother]; cbn.
    + rewrite last_cons, lookup_insert_eq. by destruct (last _).
    + by rewrite lookup_insert_ne.
  - rewrite andb_false_r. apply IH.
Qed.

Local Abbreviation positions_updated :=
  (update_positions get_positions).

Lemma update_positions_run (s : Live) :
  positions_updated s
  = let sym := symbol (engine (world s)) in
    let '(a, r) := get_positions sym (adapter (world s)) in
    match r with
    | Ok positions =>
        ({| world :=
              {| engine := set_active_positions
                             (positions_by_symbol positions)
                             (engine (world s));
                 adapter := a |};
            limits := limits s |},
         [GetPositions sym None], Ok tt)
    | Raise e => (moved s a, [GetPositions sym (Some e)], Raise e)
    end.
Proof.
  unfold update_positions, known, request, read, update, mbind, N_bind. cbn.
  by destruct (get_positions _ _) as [a [positions|e]].
Qed.

(** X26.  When the adapter reports its positions, [update_positions]
    replaces the held positions by the reported ones: under each symbol the
    last reported position of that symbol whose size exceeds 0.0001 in
    absolute value, and nothing else.  The stop orders, the counters and the
    limits are kept. *)
Theorem update_positions_keeps_latest_open
    (s : Live) (a : A) (positions : list AdapterPosition) :
  let eng := engine (world s) in
  get_positions (symbol eng) (adapter (world s)) = (a, Ok positions) →
  ∃ s',
    positions_updated s = (s', [GetPositions (symbol eng) None], Ok tt)
    ∧ (∀ k, active_positions (engine (world s')) !! k
            = last (List.filter
                      (λ pos, String.eqb (pos_symbol pos) k && is_open pos)
                      positions))
    ∧ (∀ k pos, active_positions (engine (world s')) !! k = Some pos →
                pos_symbol pos = k ∧ pos ∈ positions
                ∧ (1 / 10000 < Qabs (pos_size pos))%Q)
    ∧ symbol (engine (world s')) = symbol eng
    ∧ active_stop_orders (engine (world s')) = active_stop_orders eng
    ∧ trades_executed (engine (world s')) = trades_executed eng
    ∧ trades_skipped (engine (world s')) = trades_skipped eng
    ∧ limits s' = limits s.
Proof.
  intros eng Hpositions. rewrite update_positions_run. cbn zeta.
  fold eng. rewrite Hpositions. eexists. split; [done|]. cbn.
  split; [apply positions_by_symbol_lookup|]. split; [|done].
  intros k pos. rewrite positions_by_symbol_lookup. intros Hlast.
  apply last_Some_elem_of, list_elem_of_In, filter_In in Hlast
    as [Hin [Hkey Hopen]%andb_prop].
  apply String.eqb_eq in Hkey. apply Qlt_bool_iff in Hopen.
  by rewrite list_elem_of_In.
Qed.

(** *** Exits *)

Lemma moved_same (s : Live (A:=A)) : moved s (adapter (world s)) = s.
Proof. by destruct s as [[eng a] l]. Qed.

(** A loop whose body makes one call and swallows its failure. *)
Lemma for_each_run {X} (body : X → N unit) (shape : X → LiveCall)
    (xs : list X) (s : Live) :
  (∀ x (s : Live (A:=A)), ∃ a c, body x s = (moved s a, [c], Ok tt)
                 ∧ attempted c = shape x) →
  ∃ a calls,
    for_each body xs s = (moved s a, calls, Ok tt)
    ∧ attempted <$> calls = shape <$> xs.
Proof.
  intros Hbody. revert s. induction xs as [|x xs IH]; intros s.
  { exists (adapter (world s)), []. by rewrite moved_same. }
  destruct (Hbody x s) as (a1 & c & Hx & Hshape).
  destruct (IH (moved s a1)) as (a2 & calls & Hxs & Hshapes).
  exists a2, (c :: calls). cbn [for_each]. unfold mbind, N_bind.
  rewrite Hx, Hxs. cbn. by rewrite Hshape, Hshapes.
Qed.

Lemma close_position_run (item : string * AdapterPosition) (s : Live) :
  ∃ a c, close_position place_market_order item s = (moved s a, [c], Ok tt)
         ∧ attempted c = close_order item.
Proof.
  destruct item as [sym position].
  unfold close_position, attempt, request, mbind, N_bind. cbn.
  destruct (place_market_order _ _ _ _ _) as [a [order|e]];
    by do 2 eexists.
Qed.

Lemma cancel_stop_order_run (item : string * string) (s : Live) :
  ∃ a c, cancel_stop_order cancel_order item s = (moved s a, [c], Ok tt)
         ∧ attempted c = cancellation item.
Proof.
  destruct item as [sym id].
  unfold cancel_stop_order, attempt, request. cbn.
  destruct (cancel_order _ _ _) as [a [[]|e]]; by do 2 eexists.
Qed.

Local Abbreviation all_closed :=
  (_close_all_positions place_market_order cancel_order items).

Local Abbreviation flat eng :=
  {| symbol := symbol eng;
     active_positions := ∅;
     active_stop_orders := ∅;
     trades_executed := trades_executed eng;
     trades_skipped := trades_skipped eng |}.

Lemma close_all_positions_run (s : Live) :
  let eng := engine (world s) in
  ∃ a calls,
    all_closed s
    = ({| world := {| engine := flat eng; adapter := a |};
          limits := limits s |}, calls, Ok tt)
    ∧ attempted <$> calls
      = (close_order <$> items _ (active_positions eng))
        ++ (cancellation <$> items _ (active_stop_orders eng)).
Proof.
  destruct s as [[eng a0] l]. cbn.
  destruct (for_each_run (close_position place_market_order) close_order
              (items _ (active_positions eng))
              {| world := {| engine := eng; adapter := a0 |}; limits := l |}
              close_position_run)
    as (a1 & calls1 & Hclose & Hcalls1).
  destruct (for_each_run (cancel_stop_order cancel_order) cancellation
              (items _ (active_stop_orders eng))
              {| world := {| engine := eng; adapter := a1 |}; limits := l |}
              cancel_stop_order_run)
    as (a2 & calls2 & Hcancel & Hcalls2).
  cbn in Hclose, Hcancel. exists a2, (calls1 ++ calls2).
  unfold _close_all_positions, known, read, update, mbind, N_bind. cbn.
  rewrite Hclose. cbn. rewrite Hcancel. cbn.
  by rewrite app_nil_r, fmap_app, Hcalls1, Hcalls2.
Qed.

(** X27.  [_close_all_positions] never raises, whatever the adapter does:
    it attempts one reduce-only market order for each held position, on the
    side opposite to the position and for its size, then one cancellation
    for each recorded stop order, and leaves the engine with no position and
    no stop order, its counters and limits as they were. *)
Theorem close_all_never_raises (s : Live) :
  let eng := engine (world s) in
  (∀ V (m : gmap string V), items V m ≡ₚ map_to_list m) →
  ∃ a calls,
    all_closed s
    = ({| world := {| engine := flat eng; adapter := a |};
          limits := limits s |}, calls, Ok tt)
    ∧ attempted <$> calls
      = (close_order <$> items _ (active_positions eng))
        ++ (cancellation <$> items _ (active_stop_orders eng))
    ∧ (∀ sym position,
         active_positions eng !! sym = Some position →
         PlaceReduceOnlyMarketOrder sym (closing_side position)
           (pos_size position) None ∈ attempted <$> calls)
    ∧ (∀ sym order_id,
         active_stop_orders eng !! sym = Some order_id →
         CancelOrder sym order_id None ∈ attempted <$> calls)
    ∧ length calls
      = (size (active_positions eng) + size (active_stop_orders eng))%nat.
Proof.
  intros eng Hitems.
  destruct (close_all_positions_run s) as (a & calls & Hrun & Hcalls).
  exists a, calls. split; [done|]. split; [done|]. fold eng in Hcalls.
  split; [|split].
  - intros sym position Hheld. rewrite Hcalls, elem_of_app. left.
    apply (list_elem_of_fmap_2 close_order _ (sym, position)).
    by rewrite Hitems, elem_of_map_to_list.
  - intros sym order_id Hplaced. rewrite Hcalls, elem_of_app. right.
    apply (list_elem_of_fmap_2 cancellation _ (sym, order_id)).
    by rewrite Hitems, elem_of_map_to_list.
  - rewrite <- (length_fmap attempted), Hcalls, length_app, !length_fmap.
    by rewrite !Hitems, !length_map_to_list.
Qed.

(** *** The trailing stop *)

Local Abbreviation stop_updated :=
  (_update_stop_loss place_stop_market_order cancel_order).

Local Ltac members :=
  repeat match goal with
    | H : _ ∈ [] |- _ => by apply elem_of_nil in H
    | H : _ ∈ _ :: _ |- _ => apply elem_of_cons in H as [H|H]
    | H : ?c = ?d |- _ =>
        first [is_var c; fail 1 | discriminate H
              | injection H as ?; subst]
    end.

(** X28.  [_update_stop_loss] never raises and touches only the stop
    orders.  It cancels nothing but the recorded stop order of the engine's
    symbol, and a stop it places is reduce-only, for the size of the held
    position, on the side opposite to it, at the signal's non-zero stop
    price.  When placing it fails the recorded stop orders stay as they
    were, the cancelled one included. *)
Theorem update_stop_loss_swallows_failures
    (signal : Signal) (current_price : Q) (s : Live) :
  let '(s', calls, r) := stop_updated signal current_price s in
  let eng := engine (world s) in
  let eng' := engine (world s') in
  r = Ok tt
  ∧ limits s' = limits s
  ∧ symbol eng' = symbol eng
  ∧ active_positions eng' = active_positions eng
  ∧ trades_executed eng' = trades_executed eng
  ∧ trades_skipped eng' = trades_skipped eng
  ∧ (∀ sym order_id raised,
       CancelOrder sym order_id raised ∈ calls →
       sym = symbol eng ∧ active_stop_orders eng !! sym = Some order_id)
  ∧ (∀ sym side quantity stop reduce_only raised,
       Known (PlaceStopMarketOrder sym side quantity stop reduce_only raised)
         ∈ calls →
       ∃ position,
         active_positions eng !! symbol eng = Some position
         ∧ sym = symbol eng ∧ side = closing_side position
         ∧ quantity = pos_size position
         ∧ stop_price signal = Some stop ∧ ¬ (stop == 0)%Q
         ∧ reduce_only = true
         ∧ match raised with
           | Some _ => active_stop_orders eng' = active_stop_orders eng
           | None => is_Some (active_stop_orders eng' !! sym)
           end).
Proof.
  destruct s as [[eng a0] l].
  unfold _update_stop_loss, known, read, update, call, attempt, request,
    mbind, N_bind.
  cbn.
  destruct (active_positions eng !! symbol eng) as [position|] eqn:Hheld;
    [|by repeat split; intros; members].
  destruct (stop_price signal) as [stop|] eqn:Hstop;
    [|by repeat split; intros; members].
  destruct (truthy stop) eqn:Htruthy; cbn;
    [|by repeat split; intros; members].
  apply truthy_true_iff in Htruthy.
  destruct (active_stop_orders eng !! symbol eng) as [order_id|] eqn:Hid; cbn;
    [destruct (cancel_order _ _ _) as [a1 [[]|e1]]; cbn|];
    (destruct (place_stop_market_order _ _ _ _ _ _) as [a2 [order|e2]]; cbn);
    (repeat split; try done; intros; members; try done;
     exists position; repeat split; try done;
     by rewrite lookup_insert_eq).
Qed.

Lemma update_stop_loss_returns (signal : Signal) (current_price : Q)
    (s : Live) :
  (stop_updated signal current_price s).2 = Ok tt.
Proof.
  destruct s as [[eng a0] l].
  unfold _update_stop_loss, known, read, update, call, attempt, request,
    mbind, N_bind.
  cbn.
  destruct (active_positions eng !! symbol eng) as [position|]; [|done].
  destruct (stop_price signal) as [stop|]; [|done].
  destruct (truthy stop); cbn; [|done].
  destruct (active_stop_orders eng !! symbol eng) as [order_id|]; cbn;
    [destruct (cancel_order _ _ _) as [a1 [[]|e1]]; cbn|];
    by destruct (place_stop_market_order _ _ _ _ _ _) as [a2 [order|e2]].
Qed.

(** *** Signals *)

Local Abbreviation processed :=
  (process_signal get_account_balance get_positions place_market_order
     place_stop_market_order cancel_order calculate_margin format_float
     items).

(** X29.  Once the daily loss, [(start - equity) / start * 100] as
    [check_safety_limits] computes it from the start-of-day balance, has
    reached the daily-loss limit, [process_signal] places and cancels no
    order, whatever the signal: it returns with the engine and the limits as
    they were, having made the balance query only. *)
Theorem daily_loss_halts_trading
    (signal : Signal) (current_price : Q) (s : Live) (a : A)
    (balance : Balance) :
  let start := daily_start_balance (limits s) in
  let equity := total_balance balance in
  get_account_balance (adapter (world s)) = (a, Ok balance) →
  ¬ (start == 0)%Q →
  (max_daily_loss_pct (limits s) <= (start - equity) / start * 100)%Q →
  let '(s', calls, r) := processed signal current_price s in
  r = Ok tt
  ∧ engine (world s') = engine (world s)
  ∧ limits s' = limits s
  ∧ Forall (λ c, is_order c = false) calls
  ∧ (∀ act, action signal = Some act → act ≠ "" →
            calls = [Known (GetAccountBalance None)]).
Proof.
  intros start equity Hbalance Hstart Hloss.
  apply Qle_bool_iff in Hloss.
  unfold process_signal.
  destruct (action signal) as [act|];
    [|cbn; repeat split; [constructor|intros; congruence]].
  destruct (String.eqb_spec act "") as [->|Hact];
    [cbn; repeat split; [constructor|intros; congruence]|].
  unfold mbind, N_bind. rewrite check_safety_limits_run, Hbalance. cbn zeta.
  fold start equity. rewrite (py_div_ok _ start) by done. rewrite Hloss. cbn.
  repeat split. by repeat constructor.
Qed.

(** X30.  When [process_signal] raises, no order has been placed or
    cancelled: every adapter call it made is a query, and the stop orders and
    both trade counters are as they were. *)
Theorem process_signal_raises_before_any_order
    (signal : Signal) (current_price : Q) (s : Live) (e : exn) :
  let '(s', calls, r) := processed signal current_price s in
  r = Raise e →
  Forall (λ c, is_order c = false) calls
  ∧ active_stop_orders (engine (world s'))
    = active_stop_orders (engine (world s))
  ∧ trades_executed (engine (world s')) = trades_executed (engine (world s))
  ∧ trades_skipped (engine (world s')) = trades_skipped (engine (world s)).
Proof.
  unfold process_signal.
  destruct (action signal) as [act|]; [|done].
  destruct (String.eqb act ""); [done|].
  unfold mbind at 1. unfold N_bind at 1.
  pose proof (check_safety_limits_queries s) as Hsafe.
  destruct (check_safety_limits _ _ s) as [[s1 calls1] r1].
  destruct Hsafe as (Heng1 & [raised ->]).
  destruct r1 as [[[] reason]|e1];
    [done| |intros _; rewrite Heng1; by repeat constructor].
  unfold mbind at 1. unfold N_bind at 1. rewrite update_positions_run.
  cbn zeta. destruct (get_positions _ _) as [a2 [positions|e2]];
    [|intros _; cbn; rewrite Heng1; by repeat constructor].
  destruct (String.eqb act "CLOSE").
  { match goal with |- context [all_closed ?s2] =>
      destruct (close_all_positions_run s2) as (a3 & calls3 & -> & _) end.
    done. }
  destruct (String.eqb act "BUY" || String.eqb act "SELL").
  { unfold known. cbn [world limits].
    match goal with |- context [_process_entry_signal ?b ?m ?p ?c ?g ?x ?w] =>
      pose proof (EntryRunsFacts.entry_run_complete b m p c g x w) as Hrun;
      destruct (_process_entry_signal b m p c g x w) as [[w3 calls3] r3]
    end.
    inversion Hrun; subst; try done;
      intros _; cbn; rewrite Heng1; by repeat constructor. }
  destruct (String.eqb act "UPDATE_STOP"); [|done].
  match goal with |- context [stop_updated ?g ?x ?s2] =>
    pose proof (update_stop_loss_returns g x s2) as Hstop;
    destruct (stop_updated g x s2) as [[s3 calls3] r3]
  end.
  cbn in Hstop. by rewrite Hstop.
Qed.

End Facts.

Lemma safety_check_raises_on_zero_level_witness :
  (check_safety_limits funded (λ _ _, "x")
     (live flat_engine zero_capital_limits)).2
  = Raise ZeroDivisionError.
Proof.
  apply (safety_check_raises_on_zero_level funded (λ _ _, "x")
           (live flat_engine zero_capital_limits) 1%nat
           {| total_balance := 1000; available_balance := 1000;
              margin_used := 0; unrealized_pnl := 0 |} ZeroDivisionError).
  - reflexivity.
  - split; [reflexivity|]. left. reflexivity.
Defined.

Lemma update_positions_keeps_latest_open_witness :
  ∃ s',
    update_positions reported_positions (live flat_engine default_limits)
    = (s', [GetPositions "BTCUSDT" None], Ok tt)
    ∧ active_positions (engine (world s')) !! "BTCUSDT" = Some long_position
    ∧ limits s' = default_limits.
Proof.
  destruct (update_positions_keeps_latest_open reported_positions
              (live flat_engine default_limits) 1%nat
              [long_position; dust_position])
    as (s' & Hrun & Hlookup & _ & _ & _ & _ & _ & Hlimits);
    [reflexivity|].
  exists s'. split; [exact Hrun|]. split; [|exact Hlimits].
  rewrite Hlookup. reflexivity.
Defined.

Lemma close_all_never_raises_witness :
  ∃ a calls,
    _close_all_positions refuse_any_market_order refuse_cancel
      (λ V, map_to_list) (live holding_engine default_limits)
    = ({| world :=
            {| engine :=
                 {| symbol := "BTCUSDT"; active_positions := ∅;
                    active_stop_orders := ∅; trades_executed := 4;
                    trades_skipped := 1 |};
               adapter := a |};
          limits := default_limits |}, calls, Ok tt)
    ∧ length calls = 2%nat.
Proof.
  destruct (close_all_never_raises refuse_any_market_order refuse_cancel
              (λ V, map_to_list) (live holding_engine default_limits))
    as (a & calls & Hrun & _ & _ & _ & Hlength); [reflexivity|].
  exists a, calls. split; [exact Hrun|]. rewrite Hlength. reflexivity.
Defined.

Lemma daily_loss_halts_trading_witness :
  let '(s', calls, r) :=
    process_signal funded reported_positions refuse_any_market_order
      refuse_stop_order refuse_cancel tenth_margin (λ _ _, "x")
      (λ V, map_to_list) buy_signal 100
      (live flat_engine default_limits) in
  r = Ok tt
  ∧ engine (world s') = flat_engine
  ∧ limits s' = default_limits
  ∧ Forall (λ c, is_order c = false) calls
  ∧ (∀ act, action buy_signal = Some act → act ≠ "" →
            calls = [Known (GetAccountBalance None)]).
Proof.
  apply (daily_loss_halts_trading funded reported_positions
           refuse_any_market_order refuse_stop_order refuse_cancel
           tenth_margin (λ _ _, "x") (λ V, map_to_list) buy_signal 100
           (live flat_engine default_limits) 1%nat
           {| total_balance := 1000; available_balance := 1000;
              margin_used := 0; unrealized_pnl := 0 |}).
  - reflexivity.
  - by vm_compute.
  - by vm_compute.
Defined.

Lemma process_signal_raises_before_any_order_witness :
  let '(s', calls, r) :=
    process_signal funded positions_unavailable refuse_any_market_order
      refuse_stop_order refuse_cancel tenth_margin (λ _ _, "x")
      (λ V, map_to_list) buy_signal 100
      (live flat_engine steady_limits) in
  Forall (λ c, is_order c = false) calls
  ∧ active_stop_orders (engine (world s')) = ∅
  ∧ trades_executed (engine (world s')) = 3%Z
  ∧ trades_skipped (engine (world s')) = 1%Z.
Proof.
  apply (process_signal_raises_before_any_order funded positions_unavailable
           refuse_any_market_order refuse_stop_order refuse_cancel
           tenth_margin (λ _ _, "x") (λ V, map_to_list) buy_signal 100
           (live flat_engine steady_limits) (Exception "timeout")).
  reflexivity.
Defined.

Lemma update_stop_loss_swallows_failures_witness :
  let '(s', calls, r) :=
    _update_stop_loss refuse_stop_order refuse_cancel trail_signal 100
      (live holding_engine default_limits) in
  r = Ok tt
  ∧ active_stop_orders (engine (world s'))
    = active_stop_orders holding_engine.
Proof.
  destruct (update_stop_loss_swallows_failures refuse_stop_order
              refuse_cancel trail_signal 100
              (live holding_engine default_limits))
    as (Hr & _ & _ & _ & _ & _ & _ & Hplaced).
  destruct (Hplaced "BTCUSDT" "SELL" 2%Q 97%Q true
              (Some (Exception "order rejected")))
    as (position & _ & _ & _ & _ & _ & _ & _ & Hstops).
  { right. left. }
  exact (conj Hr Hstops).
Defined.

End LiveControlFacts.
